(** * CSV import pipeline of the dashboard: validation, coercion, reporting

    A shallow embedding of [src/components/tables/CsvUpload.tsx]
    ([validateStudentData], the [processedRows] map and [handleUpload]) and
    the properties the specification states about them.

    Conventions of the embedding.
    - A JavaScript string is a [string]; each [ascii] stands for one UTF-16
      code unit in the range 0..255.  Code units above 255 are outside the
      model, so the white-space set is TAB, LF, VT, FF, CR, SPACE and NBSP.
    - A parsed CSV row (PapaParse, [header: true], no dynamic typing) is an
      object whose values are strings: a [gmap string string].  A column that
      is not in the header reads as [None] ([undefined]).
    - A JavaScript number is kept as the exact decimal its literal denotes
      ([Js.number]); [Binary64.ofNumber] rounds it to the Number value, and
      whether two numbers are equal is judged on the rounded values.
    - The host's [JSON.parse] and date parser are an interface ([Host]); the
      wall clock is an input of the functions that read it. *)

From stdpp Require Import gmap strings list fin_maps pretty.
From Stdlib Require Import ZArith Ascii.
From Stdlib Require String.

Set Warnings "-register-all".
Local Open Scope Z_scope.

(** ** The JavaScript built-ins the component calls *)

Module Js.

(** [WhiteSpace] and [LineTerminator] code units below 256: what
    [String.prototype.trim], [Number] and the regular-expression class
    [\s] treat as blank. *)
Definition isWhiteSpace (c : ascii) : bool :=
  match c with
  | "009" | "010" | "011" | "012" | "013" | " " | "160" => true
  | _ => false
  end%char.

Fixpoint trimStart (s : string) : string :=
  match s with
  | String c s' => if isWhiteSpace c then trimStart s' else s
  | EmptyString => EmptyString
  end.

Fixpoint trimEnd (s : string) : string :=
  match s with
  | EmptyString => EmptyString
  | String c s' =>
      match trimEnd s' with
      | EmptyString => if isWhiteSpace c then EmptyString else String c EmptyString
      | t => String c t
      end
  end.

(** [s.trim()] *)
Definition trim (s : string) : string := trimEnd (trimStart s).

(** [s.startsWith(p)] *)
Definition startsWith (s p : string) : bool := String.prefix p s.

(** [s.endsWith(p)]: some tail of [s] is [p]. *)
Fixpoint endsWith (s p : string) : bool :=
  String.eqb s p ||
  match s with
  | String _ s' => endsWith s' p
  | EmptyString => false
  end.

(** [s.includes(p)]: some tail of [s] starts with [p]. *)
Fixpoint includes (s p : string) : bool :=
  String.prefix p s ||
  match s with
  | String _ s' => includes s' p
  | EmptyString => false
  end.

(** [s.split(sep)] for a one-character separator. *)
Fixpoint split (sep : ascii) (s : string) : list string :=
  match s with
  | EmptyString => [EmptyString]
  | String c s' =>
      if Ascii.eqb c sep then EmptyString :: split sep s'
      else match split sep s' with
           | h :: t => String c h :: t
           | [] => [String c EmptyString]
           end
  end.

(** [parts.join(sep)] *)
Fixpoint join (sep : string) (parts : list string) : string :=
  match parts with
  | [] => ""
  | [p] => p
  | p :: rest => p +:+ sep +:+ join sep rest
  end.

(** *** Numbers *)

(** The value of a numeric literal: [Decimal neg m e] is [(-1)^neg * m * 10^e]. *)
Inductive number :=
| NaN
| Infinity (negative : bool)
| Decimal (negative : bool) (mantissa : N) (exp10 : Z).

Definition isNaN (n : number) : bool :=
  match n with NaN => true | _ => false end.

Definition digitOf (radix : N) (c : ascii) : option N :=
  let n := N_of_ascii c in
  let v := if (48 <=? n)%N && (n <=? 57)%N then Some (n - 48)%N
           else if (97 <=? n)%N && (n <=? 102)%N then Some (n - 87)%N
           else if (65 <=? n)%N && (n <=? 70)%N then Some (n - 55)%N
           else None in
  match v with
  | Some d => if (d <? radix)%N then Some d else None
  | None => None
  end.

(** Reads the longest run of digits: the value read so far, how many
    digits were read, and the rest of the text. *)
Fixpoint scanDigits (radix acc : N) (count : nat) (s : string) : N * nat * string :=
  match s with
  | String c s' =>
      match digitOf radix c with
      | Some d => scanDigits radix (acc * radix + d)%N (S count) s'
      | None => (acc, count, s)
      end
  | EmptyString => (acc, count, s)
  end.

(** [ExponentPart], optional, up to the end of the text. *)
Definition exponentPart (s : string) : option Z :=
  match s with
  | EmptyString => Some 0
  | String c s' =>
      if Ascii.eqb c "e" || Ascii.eqb c "E" then
        let '(neg, ds) :=
          match s' with
          | String "+" r => (false, r)
          | String "-" r => (true, r)
          | _ => (false, s')
          end in
        match scanDigits 10 0 0 ds with
        | (v, S _, EmptyString) => Some (if neg then - Z.of_N v else Z.of_N v)
        | _ => None
        end
      else None
  end.

(** [StrUnsignedDecimalLiteral] other than [Infinity]. *)
Definition unsignedDecimal (s : string) : option (N * Z) :=
  let '(i, ni, r1) := scanDigits 10 0 0 s in
  match r1 with
  | String "." r2 =>
      let '(m, nf, r3) := scanDigits 10 i 0 r2 in
      match ni, nf with
      | O, O => None
      | _, _ =>
          match exponentPart r3 with
          | Some e => Some (m, e - Z.of_nat nf)
          | None => None
          end
      end
  | _ =>
      match ni with
      | O => None
      | S _ =>
          match exponentPart r1 with
          | Some e => Some (i, e)
          | None => None
          end
      end
  end.

Definition strDecimalLiteral (negative : bool) (s : string) : number :=
  if String.eqb s "Infinity" then Infinity negative
  else match unsignedDecimal s with
       | Some (m, e) => Decimal negative m e
       | None => NaN
       end.

Definition nonDecimalLiteral (radix : N) (s : string) : number :=
  match scanDigits radix 0 0 s with
  | (v, S _, EmptyString) => Decimal false v 0
  | _ => NaN
  end.

(** [Number(s)] for a string [s] (StringToNumber). *)
Definition Number (s : string) : number :=
  match trim s with
  | EmptyString => Decimal false 0 0
  | String "0" (String "x" r) | String "0" (String "X" r) => nonDecimalLiteral 16 r
  | String "0" (String "o" r) | String "0" (String "O" r) => nonDecimalLiteral 8 r
  | String "0" (String "b" r) | String "0" (String "B" r) => nonDecimalLiteral 2 r
  | String "+" r => strDecimalLiteral false r
  | String "-" r => strDecimalLiteral true r
  | t => strDecimalLiteral false t
  end.

(** *** Values *)

Inductive value :=
| Null
| Bool (b : bool)
| Num (n : number)
| Str (s : string)
| Arr (items : list value)
| Obj (fields : list (string * value)).

(** Truthiness of a property read; [None] is [undefined]. *)
Definition truthy (v : option value) : bool :=
  match v with
  | None | Some Null => false
  | Some (Bool b) => b
  | Some (Num NaN) => false
  | Some (Num (Decimal _ m _)) => negb (m =? 0)%N
  | Some (Num (Infinity _)) => true
  | Some (Str s) => negb (String.eqb s "")
  | Some (Arr _) | Some (Obj _) => true
  end.

(** Truthiness of a raw CSV cell. *)
Definition truthyCell (v : option string) : bool :=
  match v with
  | None => false
  | Some s => negb (String.eqb s "")
  end.

(** *** Regular expressions *)

Inductive regex :=
| Void
| Eps
| Class (p : ascii → bool)
| Seq (r1 r2 : regex)
| Alt (r1 r2 : regex)
| Star (r : regex).

Definition Plus (r : regex) : regex := Seq r (Star r).

Fixpoint nullable (r : regex) : bool :=
  match r with
  | Void | Class _ => false
  | Eps | Star _ => true
  | Seq r1 r2 => nullable r1 && nullable r2
  | Alt r1 r2 => nullable r1 || nullable r2
  end.

Fixpoint deriv (c : ascii) (r : regex) : regex :=
  match r with
  | Void | Eps => Void
  | Class p => if p c then Eps else Void
  | Seq r1 r2 =>
      if nullable r1 then Alt (Seq (deriv c r1) r2) (deriv c r2)
      else Seq (deriv c r1) r2
  | Alt r1 r2 => Alt (deriv c r1) (deriv c r2)
  | Star r1 => Seq (deriv c r1) (Star r1)
  end.

(** [/^r$/.test(s)]: the whole of [s] is in the language of [r]. *)
Fixpoint test (r : regex) (s : string) : bool :=
  match s with
  | EmptyString => nullable r
  | String c s' => test (deriv c r) s'
  end.

(** *** Dates *)

Definition padStart (width : nat) (s : string) : string :=
  String.concat "" (replicate (width - String.length s) "0") +:+ s.

Definition msPerDay : Z := 86400000.

(** Year, month and day of the proleptic Gregorian calendar for a day
    number counted from 1970-01-01. *)
Definition civilFromDays (days : Z) : Z * Z * Z :=
  let z := days + 719468 in
  let era := z / 146097 in
  let doe := z - era * 146097 in
  let yoe := (doe - doe / 1460 + doe / 36524 - doe / 146096) / 365 in
  let doy := doe - (365 * yoe + yoe / 4 - yoe / 100) in
  let mp := (5 * doy + 2) / 153 in
  let d := doy - (153 * mp + 2) / 5 + 1 in
  let m := if mp <? 10 then mp + 3 else mp - 9 in
  let y := yoe + era * 400 + (if m <=? 2 then 1 else 0) in
  (y, m, d).

Definition isoYear (y : Z) : string :=
  if (0 <=? y) && (y <=? 9999) then padStart 4 (pretty y)
  else (if y <? 0 then "-" else "+") +:+ padStart 6 (pretty (Z.abs y)).

(** [new Date(t).toISOString()] for a time value [t] in milliseconds. *)
Definition toISOString (t : Z) : string :=
  let '(y, m, d) := civilFromDays (t / msPerDay) in
  let ms := t mod msPerDay in
  isoYear y +:+ "-" +:+ padStart 2 (pretty m) +:+ "-" +:+ padStart 2 (pretty d)
  +:+ "T" +:+ padStart 2 (pretty (ms / 3600000))
  +:+ ":" +:+ padStart 2 (pretty (ms / 60000 mod 60))
  +:+ ":" +:+ padStart 2 (pretty (ms / 1000 mod 60))
  +:+ "." +:+ padStart 3 (pretty (ms mod 1000)) +:+ "Z".

(** *** What the host supplies *)

(** [JSON_parse s] is [None] when [JSON.parse(s)] throws.  [Date_parse s]
    is the time value of [new Date(s)], [None] when the date is invalid;
    outside the ISO format the accepted texts are the host's own.  A JSON
    text whose first character opens a bracket denotes an array. *)
Class Host := {
  JSON_parse : string → option value;
  Date_parse : string → option Z;
  JSON_parse_bracket : ∀ s j,
    startsWith s "[" = true → JSON_parse s = Some j → ∃ items, j = Arr items;
}.

End Js.

Import Js.


(** ** The collaborators of the component

    [bulkInsert] and [fetchTableData] come from [@/lib/api], the parser from
    PapaParse.  Their code is not part of the component: a call is answered
    by the [World] the component runs in. *)

Module Api.

(** An awaited call either returns or throws.  [Throws message] throws a
    value other than [undefined] and [null], known by its [message]
    property: the string it holds, [None] when the value has no [message]
    (as a thrown string or number has none) or a falsy one.
    [ThrowsNullish] throws [undefined] or [null], as [Promise.reject()]
    does: reading [err.message] of such a value throws a [TypeError].  A
    truthy [message] that is not a string is not modelled. *)
Inductive Outcome (A : Type) :=
| Returns (a : A)
| Throws (message : option string)
| ThrowsNullish.
Arguments Returns {A} a.
Arguments Throws {A} message.
Arguments ThrowsNullish {A}.

(** Modelled from the spec: the result type of [bulkInsert], which
    [@/lib/api] declares (section 6: [bulkInsert(entityKind, records) ->
    {success, message}]); the component reads these two fields. *)
Record BulkResult := { success : bool; message : string }.

End Api.

Import Api.

Module CsvUpload.

Abbreviation RawRecord := (gmap string string).
Abbreviation CoercedRecord := (gmap string value).

(** An element of [Set<string | number>]: the [student_id] of a stored row
    as the backing store returned it. *)
Inductive Ident :=
| IdStr (s : string)
| IdNum (n : number)
| IdNull
| IdUndefined.

#[global] Instance number_eq_dec : EqDecision number.
Proof. solve_decision. Defined.

#[global] Instance number_countable : Countable number.
Proof.
  refine (inj_countable'
    (λ n, match n with
          | NaN => inl ()
          | Infinity b => inr (inl b)
          | Decimal b m e => inr (inr (b, m, e))
          end)
    (λ x, match x with
          | inl _ => NaN
          | inr (inl b) => Infinity b
          | inr (inr (b, m, e)) => Decimal b m e
          end) _).
  intros []; reflexivity.
Defined.

#[global] Instance Ident_eq_dec : EqDecision Ident.
Proof. solve_decision. Defined.

#[global] Instance Ident_countable : Countable Ident.
Proof.
  refine (inj_countable'
    (λ i, match i with
          | IdStr s => inl s
          | IdNum n => inr (inl n)
          | IdNull => inr (inr true)
          | IdUndefined => inr (inr false)
          end)
    (λ x, match x with
          | inl s => IdStr s
          | inr (inl n) => IdNum n
          | inr (inr true) => IdNull
          | inr (inr false) => IdUndefined
          end) _).
  intros []; reflexivity.
Defined.

(** *** validateStudentData (lines 74-140) *)

Record ValidationError := { row : nat; message : string }.

Definition requiredFields : list string :=
  ["first_name"; "last_name"; "student_email"; "program_id"; "center_id"].

Definition numericFields : list string :=
  ["program_id"; "program_2_id"; "center_id"; "number_of_sessions";
   "educator_employee_id"; "secondary_educator_employee_id"].

(** The class [[^\s@]]. *)
Definition emailAtom : regex :=
  Class (λ c, negb (isWhiteSpace c || Ascii.eqb c "@")).

(** [/^[^\s@]+@[^\s@]+\.[^\s@]+$/] *)
Definition emailPattern : regex :=
  Seq (Plus emailAtom)
    (Seq (Class (Ascii.eqb "@"))
       (Seq (Plus emailAtom)
          (Seq (Class (Ascii.eqb ".")) (Plus emailAtom)))).

Definition quote : string := String (ascii_of_nat 34) EmptyString.

(** [`Row ${index + 1}: `] *)
Definition rowLabel (index : nat) : string :=
  "Row " +:+ pretty (index + 1)%nat +:+ ": ".

Definition missingFieldError (index : nat) (field : string) : ValidationError :=
  {| row := index + 1;
     message := rowLabel index +:+ "Missing required field " +:+ quote +:+ field +:+ quote |}.

Definition duplicateError (index : nat) (id : string) : ValidationError :=
  {| row := index + 1;
     message := rowLabel index +:+ "Duplicate student_id " +:+ quote +:+ id +:+ quote
                +:+ " found in CSV file" |}.

Definition existsError (index : nat) (id : string) : ValidationError :=
  {| row := index + 1;
     message := rowLabel index +:+ "student_id " +:+ quote +:+ id +:+ quote
                +:+ " already exists in the database" |}.

Definition emailFormatError (index : nat) (column : string) : ValidationError :=
  {| row := index + 1;
     message := rowLabel index +:+ "Invalid " +:+ column +:+ " format" |}.

Definition numericError (index : nat) (field : string) : ValidationError :=
  {| row := index + 1;
     message := rowLabel index +:+ "Invalid numeric value for " +:+ quote +:+ field +:+ quote |}.

(** [!row[field] || row[field].toString().trim() === ''] *)
Definition isMissing (cell : option string) : bool :=
  match cell with
  | None => true
  | Some v => String.eqb v "" || String.eqb (trim v) ""
  end.

(** [cell && !/^[^\s@]+@[^\s@]+\.[^\s@]+$/.test(cell)] *)
Definition badEmail (cell : option string) : bool :=
  match cell with
  | None => false
  | Some v => negb (String.eqb v "") && negb (test emailPattern v)
  end.

(** [row[field] && row[field] !== '' && isNaN(Number(row[field]))] *)
Definition badNumber (cell : option string) : bool :=
  match cell with
  | None => false
  | Some v => negb (String.eqb v "") && negb (String.eqb v "") && isNaN (Number v)
  end.

(** The two locals the row callback closes over. *)
Record State := { errors : list ValidationError; seenIds : gset Ident }.

Definition push (e : ValidationError) (st : State) : State :=
  {| errors := errors st ++ [e]; seenIds := seenIds st |}.

Definition addSeen (id : Ident) (st : State) : State :=
  {| errors := errors st; seenIds := {[id]} ∪ seenIds st |}.

(** Lines 80-88: check required fields. *)
Definition checkRequired (index : nat) (row : RawRecord) (st : State) : State :=
  foldl (λ st field,
           if isMissing (row !! field)
           then push (missingFieldError index field) st else st)
        st requiredFields.

(** Lines 90-108: check for a duplicate [student_id] within the file, then
    whether it already exists in the database. *)
Definition checkStudentId (existingIds : gset Ident) (index : nat) (row : RawRecord)
    (st : State) : State :=
  match row !! "student_id" with
  | Some id =>
      if String.eqb id "" then st
      else
        let st := if decide (IdStr id ∈ seenIds st)
                  then push (duplicateError index id) st
                  else addSeen (IdStr id) st in
        if decide (IdStr id ∈ existingIds)
        then push (existsError index id) st else st
  | None => st
  end.

(** Lines 110-123: validate the email format if present. *)
Definition checkEmail (index : nat) (row : RawRecord) (column : string)
    (st : State) : State :=
  if badEmail (row !! column) then push (emailFormatError index column) st else st.

(** Lines 125-136: validate numeric fields if present. *)
Definition checkNumeric (index : nat) (row : RawRecord) (st : State) : State :=
  foldl (λ st field,
           if badNumber (row !! field)
           then push (numericError index field) st else st)
        st numericFields.

(** The body of [rows.forEach((row, index) => ...)]. *)
Definition checkRow (existingIds : gset Ident) (index : nat) (row : RawRecord)
    (st : State) : State :=
  let st := checkRequired index row st in
  let st := checkStudentId existingIds index row st in
  let st := checkEmail index row "student_email" st in
  let st := checkEmail index row "parents_email" st in
  checkNumeric index row st.

Fixpoint forEachRow (existingIds : gset Ident) (rows : list RawRecord)
    (index : nat) (st : State) : State :=
  match rows with
  | [] => st
  | row :: rest =>
      forEachRow existingIds rest (S index) (checkRow existingIds index row st)
  end.

Definition validateStudentData (rows : list RawRecord) (existingIds : gset Ident)
    : list ValidationError :=
  errors (forEachRow existingIds rows 0 {| errors := []; seenIds := ∅ |}).

(** *** The [processedRows] map (lines 194-256) *)

Definition coercedNumericKeys : list string :=
  ["program_id"; "program_2_id"; "center_id"; "number_of_sessions";
   "educator_employee_id"; "secondary_educator_employee_id"; "student_id";
   "enrollment_year"].

Definition arrayKeys : list string := ["days_of_week"; "timings"].

(** [keys.includes(key)] *)
Definition hasKey (keys : list string) (key : string) : bool :=
  existsb (String.eqb key) keys.

Section WithHost.
Context `{Host}.

(** The body of [Object.entries(row).forEach(([key, value]) => ...)]: what
    [newRow[key]] is set to.  A cell is a string, so the [typeof] tests
    hold and the [catch] of the array case yields [[value]]. *)
Definition coerceCell (key value : string) : Js.value :=
  (* Convert empty strings to null *)
  if String.eqb value "" then Null
  (* Convert numeric values *)
  else if hasKey coercedNumericKeys key && negb (isNaN (Number value))
  then Num (Number value)
  (* Handle arrays *)
  else if hasKey arrayKeys key then
    if startsWith value "[" && endsWith value "]" then
      match JSON_parse value with
      | Some parsed => parsed
      | None => Arr [Str value]
      end
    else if includes value "," then Arr (map (λ item, Str (trim item)) (split "," value))
    else Arr [Str value]
  (* Format date fields *)
  else if String.eqb key "dob" || String.eqb key "created_at" then
    match Date_parse value with
    | Some t => Str (toISOString t)
    | None => Str value
    end
  (* Default case *)
  else Str value.

(** The callback of [rows.map]; [now] is the time value [new Date()] reads
    while this row is processed.  Every key is assigned once, so the loop
    over the entries is a key-wise map. *)
Definition processRow (now : Z) (row : RawRecord) : CoercedRecord :=
  let newRow := map_imap (λ key value, Some (coerceCell key value)) row in
  (* Ensure created_at is always set *)
  if truthy (newRow !! "created_at") then newRow
  else <["created_at" := Str (toISOString now)]> newRow.

End WithHost.

(** *** handleUpload (lines 142-292) *)

Record Props := { tableName : string; onClose : bool }.

(** The selected file: what [await file.text()] gives. *)
Record File := { text : Outcome string }.

(** What the parser hands to [complete] ([errors] by their messages), or
    to [error]. *)
Inductive ParseOutcome :=
| Complete (errors : list string) (data : list RawRecord)
| Failed (message : string).

(** The world one upload runs in: what the calls the component makes are
    answered with.  [fetchTableData] answers with the [student_id] of each
    stored row, [None] for no data ([existingData] is then not mapped);
    [clock i] is the time [new Date()] reads while row [i] is processed. *)
Record World := {
  fetchTableData : string → Outcome (option (list Ident));
  papaParse : string → ParseOutcome;
  bulkInsert : string → list CoercedRecord → Outcome BulkResult;
  clock : nat → Z;
}.

(** What the component does to the outside, in order.  [Uncaught]: a
    [catch] block itself throws, reading [err.message] of [undefined] or
    [null]; nothing handles that [TypeError], and the handler ends there.
    [toast.success], [onSuccess] and [onClose] are taken to return. *)
Inductive Event :=
| SetError (error : option string)
| SetIsUploading (uploading : bool)
| ReadFile
| FetchTableData (table : string)
| PapaParse (content : string)
| BulkInsert (table : string) (rows : list CoercedRecord)
| ToastSuccess (message : string)
| OnSuccess
| OnClose
| Uncaught.

Definition newline : string := String (ascii_of_nat 10) EmptyString.

(** [err.message || fallback] *)
Definition messageOr (message : option string) (fallback : string) : string :=
  match message with
  | Some m => if String.eqb m "" then fallback else m
  | None => fallback
  end.

Definition duplicateKeyExplanation : string :=
  "Some student IDs in your file already exist in the database. Please check and try again.".

(** Lines 268-271 and 275-278: the message shown for a failed insert. *)
Definition classify (errorMessage : string) : string :=
  if includes errorMessage "duplicate key value" then duplicateKeyExplanation
  else errorMessage.

(** The text of line 187. *)
Definition validationReport (validationErrors : list ValidationError) : string :=
  "Validation errors found:" +:+ newline
  +:+ join newline (map message (take 5 validationErrors))
  +:+ (if (5 <? length validationErrors)%nat
       then newline +:+ "...and " +:+ pretty (length validationErrors - 5)%nat
            +:+ " more errors"
       else "").

Section UploadWithHost.
Context `{Host}.

(** Lines 193-281: coerce, insert, report. *)
Definition insertRows (p : Props) (w : World) (rows : list RawRecord) : list Event :=
  let processedRows := imap (λ i row, processRow (clock w i) row) rows in
  BulkInsert (tableName p) processedRows ::
  match bulkInsert w (tableName p) processedRows with
  | Returns result =>
      SetIsUploading false ::
      if success result then
        ToastSuccess (Api.message result) :: OnSuccess ::
        (if onClose p then [OnClose] else [])
      else [SetError (Some (classify (Api.message result)))]
  | Throws err =>
      [SetError (Some (classify (messageOr err "Error uploading data")));
       SetIsUploading false]
  | ThrowsNullish =>
      (* line 275 throws: neither [setError] nor [setIsUploading] is reached *)
      [Uncaught]
  end.

(** The [complete] callback (lines 167-282). *)
Definition complete (p : Props) (w : World) (existingIds : gset Ident)
    (parseErrors : list string) (rows : list RawRecord) : list Event :=
  match parseErrors with
  | first :: _ =>
      [SetError (Some ("CSV parsing error: " +:+ first)); SetIsUploading false]
  | [] =>
      match rows with
      | [] => [SetError (Some "CSV file contains no data"); SetIsUploading false]
      | _ :: _ =>
          let validationErrors := validateStudentData rows existingIds in
          (* Additional validation for student data *)
          if String.eqb (tableName p) "students"
             && (0 <? length validationErrors)%nat
          then [SetError (Some (validationReport validationErrors));
                SetIsUploading false]
          else insertRows p w rows
      end
  end.

(** [Papa.parse(text, { complete, error })] *)
Definition parseAndImport (p : Props) (w : World) (content : string)
    (existingIds : gset Ident) : list Event :=
  PapaParse content ::
  match papaParse w content with
  | Complete parseErrors rows => complete p w existingIds parseErrors rows
  | Failed message =>
      [SetError (Some ("CSV parsing error: " +:+ message)); SetIsUploading false]
  end.

(** The outer [catch] (lines 288-291) for a thrown value other than
    [undefined] and [null], whose [message] is [err]. *)
Definition failReading (err : option string) : list Event :=
  [SetError (Some (messageOr err "Error reading file")); SetIsUploading false].

(** The outer [catch] for a thrown [undefined] or [null]: line 289 throws,
    neither [setError] nor [setIsUploading] is reached. *)
Definition failCatching : list Event := [Uncaught].

(** The trace of one click on Upload. *)
Definition handleUpload (p : Props) (file : option File) (w : World) : list Event :=
  match file with
  | None => [SetError (Some "Please select a CSV file first")]
  | Some f =>
      SetIsUploading true :: SetError None :: ReadFile ::
      match text f with
      | Throws err => failReading err
      | ThrowsNullish => failCatching
      | Returns content =>
          (* First, get existing student_ids from the database *)
          if String.eqb (tableName p) "students" then
            FetchTableData (tableName p) ::
            match fetchTableData w (tableName p) with
            | Throws err => failReading err
            | ThrowsNullish => failCatching
            | Returns (Some existingData) =>
                parseAndImport p w content (list_to_set existingData)
            | Returns None => parseAndImport p w content ∅
            end
          else parseAndImport p w content ∅
      end
  end.

End UploadWithHost.

End CsvUpload.

Import CsvUpload.

(** ** A small host for the closed examples

    The theorems below hold for every [Host].  The examples need one to run
    on: its [JSON.parse] reads arrays of string literals without escapes and
    rejects every other text, its date parser reads the date-only ISO form
    [YYYY-MM-DD] (midnight UTC) and nothing else. *)

Module ExampleHost.

Inductive ScanMode :=
| BeforeArray
| BeforeItem (closable : bool)
| InsideString (reversed : string)
| AfterItem
| AfterArray.

Definition isJsonSpace (c : ascii) : bool :=
  match c with
  | "009" | "010" | "013" | " " => true
  | _ => false
  end%char.

Fixpoint scanStrings (mode : ScanMode) (acc : list string) (s : string)
    : option (list string) :=
  match s with
  | EmptyString =>
      match mode with
      | AfterArray => Some (reverse acc)
      | _ => None
      end
  | String c s' =>
      match mode with
      | BeforeArray =>
          if isJsonSpace c then scanStrings BeforeArray acc s'
          else if Ascii.eqb c "[" then scanStrings (BeforeItem true) acc s'
          else None
      | BeforeItem closable =>
          if isJsonSpace c then scanStrings mode acc s'
          else if Ascii.eqb c (ascii_of_nat 34) then scanStrings (InsideString "") acc s'
          else if closable && Ascii.eqb c "]" then scanStrings AfterArray acc s'
          else None
      | InsideString cur =>
          if Ascii.eqb c (ascii_of_nat 34)
          then scanStrings AfterItem (String.rev cur :: acc) s'
          else if Ascii.eqb c "\" || (N_of_ascii c <? 32)%N then None
          else scanStrings (InsideString (String c cur)) acc s'
      | AfterItem =>
          if isJsonSpace c then scanStrings AfterItem acc s'
          else if Ascii.eqb c "," then scanStrings (BeforeItem false) acc s'
          else if Ascii.eqb c "]" then scanStrings AfterArray acc s'
          else None
      | AfterArray =>
          if isJsonSpace c then scanStrings AfterArray acc s' else None
      end
  end.

Definition parseStringArray (s : string) : option value :=
  match scanStrings BeforeArray [] s with
  | Some items => Some (Arr (map Str items))
  | None => None
  end.

Definition daysFromCivil (y m d : Z) : Z :=
  let y' := if m <=? 2 then y - 1 else y in
  let era := y' / 400 in
  let yoe := y' - era * 400 in
  let doy := (153 * (if 2 <? m then m - 3 else m + 9) + 2) / 5 + d - 1 in
  let doe := yoe * 365 + yoe / 4 - yoe / 100 + doy in
  era * 146097 + doe - 719468.

Definition parseIsoDate (s : string) : option Z :=
  match scanDigits 10 0 0 s with
  | (y, 4%nat, String "-" r1) =>
      match scanDigits 10 0 0 r1 with
      | (m, 2%nat, String "-" r2) =>
          match scanDigits 10 0 0 r2 with
          | (d, 2%nat, EmptyString) =>
              let days := daysFromCivil (Z.of_N y) (Z.of_N m) (Z.of_N d) in
              if decide (civilFromDays days = (Z.of_N y, Z.of_N m, Z.of_N d))
              then Some (days * msPerDay) else None
          | _ => None
          end
      | _ => None
      end
  | _ => None
  end.

Definition host : Host.
Proof.
  refine {| JSON_parse := parseStringArray; Date_parse := parseIsoDate |}.
  intros s j _ Hparse. unfold parseStringArray in Hparse.
  destruct (scanStrings BeforeArray [] s) as [items|]; [|discriminate].
  injection Hparse as <-. by exists (map Str items).
Defined.

End ExampleHost.

(** ** The validator's rules as the specification words them (section 4.2)

    These definitions follow the specification, not the code; the theorems
    below compare them with [validateStudentData]. *)

Module Spec.

Inductive Rule :=
| RequiredField (field : string)
| IntraFileDuplicate
| CrossStoreDuplicate
| EmailFormat (column : string)
| NumericShape (field : string).

(** The rules in the order a row is checked against them. *)
Definition rules : list Rule :=
  map RequiredField requiredFields
  ++ [IntraFileDuplicate; CrossStoreDuplicate;
      EmailFormat "student_email"; EmailFormat "parents_email"]
  ++ map NumericShape numericFields.

(** Absent, or blank after trimming surrounding white space. *)
Definition blank (cell : option string) : bool :=
  match cell with
  | None => true
  | Some v => String.eqb (trim v) ""
  end.

(** The identifier a row carries: the value of its unique-identifier
    column, when the cell is there and not empty. *)
Definition identifier (row : RawRecord) : option string :=
  match row !! "student_id" with
  | Some id => if String.eqb id "" then None else Some id
  | None => None
  end.

(** The strings a regular expression denotes. *)
Inductive Matches : regex → string → Prop :=
| MatchesEps : Matches Eps ""
| MatchesClass p c : p c = true → Matches (Class p) (String c "")
| MatchesSeq r1 r2 s1 s2 :
    Matches r1 s1 → Matches r2 s2 → Matches (Seq r1 r2) (s1 +:+ s2)
| MatchesAltL r1 r2 s : Matches r1 s → Matches (Alt r1 r2) s
| MatchesAltR r1 r2 s : Matches r2 s → Matches (Alt r1 r2) s
| MatchesStarNil r : Matches (Star r) ""
| MatchesStarApp r s1 s2 :
    Matches r s1 → Matches (Star r) s2 → Matches (Star r) (s1 +:+ s2).

(** A text of white space only. *)
Definition isBlankText (s : string) : Prop :=
  ∀ c, c ∈ String.list_ascii_of_string s → isWhiteSpace c = true.

(** A word of the shape [local@domain.tld]: no white space, no [@]. *)
Definition isWord (s : string) : Prop :=
  s ≠ "" ∧ ∀ c, c ∈ String.list_ascii_of_string s → isWhiteSpace c = false ∧ c ≠ "@"%char.

Definition hasEmailShape (s : string) : Prop :=
  ∃ loc domain tld,
    s = loc +:+ "@" +:+ domain +:+ "." +:+ tld ∧ isWord loc ∧ isWord domain ∧ isWord tld.

(** Whether [row], which comes after the rows [earlier] of the file,
    violates [rule]. *)
Definition violates (earlier : list RawRecord) (existingIds : gset Ident)
    (row : RawRecord) (rule : Rule) : bool :=
  match rule with
  | RequiredField field => blank (row !! field)
  | IntraFileDuplicate =>
      match identifier row with
      | Some id => bool_decide (Some id ∈ identifier <$> earlier)
      | None => false
      end
  | CrossStoreDuplicate =>
      match identifier row with
      | Some id => bool_decide (IdStr id ∈ existingIds)
      | None => false
      end
  | EmailFormat column =>
      match row !! column with
      | Some v => negb (String.eqb v "") && negb (test emailPattern v)
      | None => false
      end
  | NumericShape field =>
      match row !! field with
      | Some v => negb (String.eqb (trim v) "") && isNaN (Number v)
      | None => false
      end
  end.

(** The error a violated rule is reported with; [id] is the identifier the
    two duplicate errors quote. *)
Definition errorOf (index : nat) (id : string) (rule : Rule) : ValidationError :=
  match rule with
  | RequiredField field => missingFieldError index field
  | IntraFileDuplicate => duplicateError index id
  | CrossStoreDuplicate => existsError index id
  | EmailFormat column => emailFormatError index column
  | NumericShape field => numericError index field
  end.

Definition ruleError (index : nat) (row : RawRecord) (rule : Rule) : ValidationError :=
  errorOf index (default "" (identifier row)) rule.

(** The errors of one row: every violated rule, in rule order. *)
Definition rowErrors (earlier : list RawRecord) (existingIds : gset Ident)
    (index : nat) (row : RawRecord) : list ValidationError :=
  ruleError index row <$> filter (λ rule, violates earlier existingIds row rule = true) rules.

(** The errors of a file: rows in file order. *)
Definition fileErrors (rows : list RawRecord) (existingIds : gset Ident)
    : list ValidationError :=
  mjoin (imap (λ index row, rowErrors (take index rows) existingIds index row) rows).

(** The identifiers the rows [earlier] carry. *)
Definition seenAfter (earlier : list RawRecord) : gset Ident :=
  list_to_set (omap (λ row, IdStr <$> identifier row) earlier).

(** The ExistingIdentifierSet an upload validates against: what the fetch
    answered, [None] when the fetch throws.  Only the students table is
    fetched. *)
Definition fetchedIds (p : Props) (w : World) : option (gset Ident) :=
  if String.eqb (tableName p) "students" then
    match fetchTableData w (tableName p) with
    | Returns (Some existingData) => Some (list_to_set existingData)
    | Returns None => Some ∅
    | Throws _ | ThrowsNullish => None
    end
  else Some ∅.

(** A record with a non-empty "created" timestamp. *)
Definition hasCreatedAt (record : CoercedRecord) : Prop :=
  ∃ stamp, record !! "created_at" = Some (Str stamp) ∧ stamp ≠ "".

(** The last error text the component set, if it set one. *)
Definition reportedError (trace : list Event) : option string :=
  last (omap (λ ev, match ev with SetError (Some m) => Some m | _ => None end) trace).

(** The bulk-insert calls of a trace. *)
Definition bulkInsertCalls (trace : list Event) : list (string * list CoercedRecord) :=
  omap (λ ev, match ev with BulkInsert t rs => Some (t, rs) | _ => None end) trace.

(** The calls of a trace that go to the backing store. *)
Definition isNetworkCall (ev : Event) : bool :=
  match ev with
  | FetchTableData _ | BulkInsert _ _ => true
  | _ => false
  end.

End Spec.

Import Spec.

(** ** Sample files and worlds for the closed examples *)

Module Examples.

Definition student (first last email program center : string) : RawRecord :=
  list_to_map [("first_name", first); ("last_name", last); ("student_email", email);
               ("program_id", program); ("center_id", center)].

Definition asha : RawRecord :=
  <["student_id" := "S-101"]> (student "Asha" "Rao" "asha@example.com" "3" "7").

Definition bala : RawRecord :=
  <["student_id" := "S-102"]> (student "Bala" "Nair" "bala@example.com" "3" "7").

(** Bala's row with a blank [last_name]. *)
Definition balaBlankLastName : RawRecord := <["last_name" := " "]> bala.

(** A third student whose row repeats Asha's identifier. *)
Definition chitraRepeatsAsha : RawRecord :=
  <["student_id" := "S-101"]> (student "Chitra" "Iyer" "chitra@example.com" "4" "7").

(** A row of a file that has no [student_id] column. *)
Definition dev : RawRecord := student "Dev" "Shah" "dev@example.com" "3" "7".

(** A row that repeats an identifier and lacks a required field. *)
Definition repeatWithoutEmail : RawRecord := <["student_email" := ""]> chitraRepeatsAsha.

Definition ashaCreated : RawRecord := <["created_at" := "2024-03-01"]> asha.

Definition ashaBadProgram : RawRecord := <["program_id" := "abc"]> asha.

Definition ashaTextualId : RawRecord := <["student_id" := "abc"]> asha.

Definition ashaBadEmail : RawRecord := <["student_email" := "bob@example"]> asha.

Definition students : Props := {| tableName := "students"; onClose := true |}.

Definition csv : File := {| text := Returns "first_name,last_name,student_email" |}.

(** A world whose parser yields [rows], whose store holds [existing] and
    whose insert ends with [outcome]. *)
Definition world (rows : list RawRecord) (existing : list Ident)
    (outcome : Outcome BulkResult) : World :=
  {| fetchTableData := λ _, Returns (Some existing);
     papaParse := λ _, Complete [] rows;
     bulkInsert := λ _ _, outcome;
     clock := λ i, 1709210096789 + Z.of_nat i |}.

Definition inserted : Outcome BulkResult :=
  Returns {| success := true; Api.message := "2 rows inserted" |}.

End Examples.

(** ** The component around the upload: state, file selection, rendering

    The rest of [CsvUpload.tsx]: the four [useState] cells, [handleFileChange],
    [generatePreview], the column list of the help text and the conditions
    of the [return (...)] block. *)

Module Component.

(** Lines 24-31. *)
Definition getStudentColumns : list string :=
  ["first_name"; "last_name"; "gender"; "dob"; "student_id"; "enrollment_year";
   "status"; "student_email"; "program_id"; "program_2_id"; "number_of_sessions";
   "timings"; "days_of_week"; "educator_employee_id"; "secondary_educator_employee_id";
   "session_type"; "fathers_name"; "mothers_name"; "blood_group"; "allergies";
   "contact_number"; "alt_contact_number"; "parents_email"; "address"; "transport";
   "strengths"; "weakness"; "comments"; "center_id"].

(** The first file of the input element: its [type] and the file. *)
Record Selected := { type : string; picked : File }.

(** Lines 18-21: the state of the component. *)
Record Ui := {
  file : option File;
  isUploading : bool;
  error : option string;
  previewData : option (list RawRecord);
}.

(** The initial values of the [useState] calls. *)
Definition initial : Ui :=
  {| file := None; isUploading := false; error := None; previewData := None |}.

Definition setFile (f : option File) (ui : Ui) : Ui :=
  {| file := f; isUploading := isUploading ui; error := error ui;
     previewData := previewData ui |}.

Definition setIsUploading (b : bool) (ui : Ui) : Ui :=
  {| file := file ui; isUploading := b; error := error ui;
     previewData := previewData ui |}.

Definition setError (e : option string) (ui : Ui) : Ui :=
  {| file := file ui; isUploading := isUploading ui; error := e;
     previewData := previewData ui |}.

Definition setPreviewData (d : option (list RawRecord)) (ui : Ui) : Ui :=
  {| file := file ui; isUploading := isUploading ui; error := error ui;
     previewData := d |}.

(** Lines 47-72.  [preview] is [Papa.parse] with [preview: 3]. *)
Definition generatePreview (f : File) (preview : string → ParseOutcome) (ui : Ui) : Ui :=
  match text f with
  | Throws err => setError (Some (messageOr err "Error reading file")) ui
  | ThrowsNullish =>
      (* line 70 throws: no setter is reached *)
      ui
  | Returns content =>
      match preview content with
      | Complete (first :: _) _ =>
          setError (Some ("CSV parsing error: " +:+ first)) ui
      | Complete [] [] => ui
      | Complete [] (row :: rows) => setPreviewData (Some (row :: rows)) ui
      | Failed message => setError (Some ("CSV parsing error: " +:+ message)) ui
      end
  end.

(** Lines 33-45; [selected] is [e.target.files?.[0]]. *)
Definition handleFileChange (selected : option Selected)
    (preview : string → ParseOutcome) (ui : Ui) : Ui :=
  match selected with
  | Some s =>
      if String.eqb (type s) "text/csv" then
        (* Generate preview when file is selected *)
        generatePreview (picked s) preview (setError None (setFile (Some (picked s)) ui))
      else
        setError (Some "Please select a valid CSV file")
          (setPreviewData None (setFile None ui))
  | None =>
      setError (Some "Please select a valid CSV file")
        (setPreviewData None (setFile None ui))
  end.

(** What an event of [handleUpload] does to the state. *)
Definition applyEvent (ui : Ui) (ev : Event) : Ui :=
  match ev with
  | SetError e => setError e ui
  | SetIsUploading b => setIsUploading b ui
  | _ => ui
  end.

(** One click on Upload: [handleUpload] reads [file] from the state and
    its setters act on the state, in order. *)
Definition clickUpload `{Host} (p : Props) (w : World) (ui : Ui) : Ui :=
  foldl applyEvent ui (handleUpload p (file ui) w).

(** Line 321: [disabled={!file || isUploading}]. *)
Definition uploadDisabled (ui : Ui) : bool :=
  match file ui with
  | None => true
  | Some _ => isUploading ui
  end.

(** Line 329: [{error && (...)}]. *)
Definition alertShown (ui : Ui) : bool := truthyCell (error ui).

(** Line 337: [{file && !error && (...)}]. *)
Definition fileInfoShown (ui : Ui) : bool :=
  match file ui with
  | None => false
  | Some _ => negb (truthyCell (error ui))
  end.

(** Line 346: [{previewData && previewData.length > 0 && (...)}], inside
    the block of line 337. *)
Definition previewShown (ui : Ui) : bool :=
  fileInfoShown ui &&
  match previewData ui with
  | Some (_ :: _) => true
  | _ => false
  end.

End Component.

(** ** Observations on a trace *)

Module Observe.

(** The error texts a trace sets, in order. *)
Definition errorsSet (trace : list Event) : list string :=
  omap (λ ev, match ev with SetError (Some m) => Some m | _ => None end) trace.

Definition isOnSuccess (ev : Event) : bool :=
  match ev with OnSuccess => true | _ => false end.

(** How often a trace calls [onSuccess]. *)
Definition successes (trace : list Event) : nat :=
  length (filter (λ ev, isOnSuccess ev = true) trace).

Definition isUncaught (ev : Event) : bool :=
  match ev with Uncaught => true | _ => false end.

(** Whether a trace ends in an error that nothing caught. *)
Definition uncaught (trace : list Event) : bool := existsb isUncaught trace.

(** Whether every call to the backing store is made while the uploading
    flag is up; [uploading] is the flag before the trace. *)
Fixpoint callsWhileUploading (uploading : bool) (trace : list Event) : bool :=
  match trace with
  | [] => true
  | SetIsUploading b :: rest => callsWhileUploading b rest
  | ev :: rest => (negb (isNetworkCall ev) || uploading) && callsWhileUploading uploading rest
  end.

End Observe.

(** ** Number values

    [Js.Number] gives the mathematical value of a numeric literal; the
    Number value JavaScript holds is that value rounded to IEEE 754
    binary64, to nearest, ties to even. *)

Module Binary64.

(** A Number value.  [Finite neg s q] is [(-1)^neg * s * 2^q] with
    [s < 2^53] and [-1074 <= q <= 971], written the one way IEEE 754
    encodes it: [2^52 <= s] unless [q = -1074]. *)
Inductive double :=
| NotANumber
| Infinite (negative : bool)
| Finite (negative : bool) (significand : N) (exponent : Z).

(** [num / den] rounded to the nearest integer, a tie to the even one. *)
Definition roundHalfEven (num den : Z) : Z :=
  let floor := num / den in
  match 2 * (num mod den) ?= den with
  | Lt => floor
  | Gt => floor + 1
  | Eq => if Z.even floor then floor else floor + 1
  end.

(** Whether [2^k <= num / den], for positive [num] and [den]. *)
Definition atLeastPow2 (num den k : Z) : bool :=
  if 0 <=? k then den * 2 ^ k <=? num else den <=? num * 2 ^ (- k).

(** The Number value of the positive rational [num / den]. *)
Definition ofRatio (negative : bool) (num den : Z) : double :=
  (* [2^k <= num / den < 2^(k+1)] *)
  let k0 := Z.log2 num - Z.log2 den in
  let k := if atLeastPow2 num den k0 then k0 else k0 - 1 in
  (* the exponent of the last place: subnormal below [2^-1022] *)
  let q := Z.max k (-1022) - 52 in
  let s := if 0 <=? q then roundHalfEven num (den * 2 ^ q)
           else roundHalfEven (num * 2 ^ (- q)) den in
  let '(s, q) := if s =? 2 ^ 53 then (2 ^ 52, q + 1) else (s, q) in
  if 971 <? q then Infinite negative else Finite negative (Z.to_N s) q.

(** The Number value of a literal's value. *)
Definition ofNumber (n : number) : double :=
  match n with
  | NaN => NotANumber
  | Infinity negative => Infinite negative
  | Decimal negative mantissa exp10 =>
      if (mantissa =? 0)%N then Finite negative 0 (-1074)
      else if 0 <=? exp10 then ofRatio negative (Z.of_N mantissa * 10 ^ exp10) 1
      else ofRatio negative (Z.of_N mantissa) (10 ^ (- exp10))
  end.

(** [x === y] on Number values: [NaN] equals nothing, the two zeros are
    equal. *)
Definition strictEquals (x y : double) : bool :=
  match x, y with
  | Finite xneg xs xq, Finite yneg ys yq =>
      (xs =? ys)%N && (xq =? yq) && ((xs =? 0)%N || Bool.eqb xneg yneg)
  | Infinite xneg, Infinite yneg => Bool.eqb xneg yneg
  | _, _ => false
  end.

End Binary64.

(** ** Further sample rows, worlds and states *)

Module Cases.

Import Examples.

(** Asha's row with cells of white space. *)
Definition ashaBlankEmail : RawRecord := <["student_email" := " "]> asha.

Definition ashaBlankSessions : RawRecord := <["number_of_sessions" := " "]> asha.

(** Asha's row with a column the coercion does not know specially. *)
Definition ashaComment : RawRecord := <["comments" := " likes music "]> asha.



(** A world whose backing store cannot be reached. *)
Definition offline : World :=
  {| fetchTableData := λ _, Throws (Some "Failed to fetch");
     papaParse := λ _, Complete [] [asha; bala];
     bulkInsert := λ _ _, Throws (Some "Failed to fetch");
     clock := λ i, 1709210096789 + Z.of_nat i |}.

(** A world whose backing store rejects without a reason, as
    [Promise.reject()] does. *)
Definition rejecting : World :=
  {| fetchTableData := λ _, ThrowsNullish;
     papaParse := λ _, Complete [] [asha; bala];
     bulkInsert := λ _ _, ThrowsNullish;
     clock := λ i, 1709210096789 + Z.of_nat i |}.

(** An insert the store refuses. *)
Definition refused : Outcome BulkResult :=
  Returns {| success := false; Api.message := "permission denied" |}.

(** The component with a file selected and its preview shown. *)
Definition selectedCsv : Component.Ui :=
  {| Component.file := Some csv; Component.isUploading := false;
     Component.error := None; Component.previewData := Some [asha; bala] |}.

(** A CSV file that holds a header line only, and its preview parse. *)
Definition headerOnly : Component.Selected :=
  {| Component.type := "text/csv";
     Component.picked := {| text := Returns "first_name,last_name,student_email" |} |}.

Definition emptyPreview : string → ParseOutcome := λ _, Complete [] [].

End Cases.

(** ** Proof automation *)

(** Splits a membership in a literal list into its cases. *)
Ltac rule_cases H :=
  simpl in H;
  repeat (apply elem_of_cons in H as [?|H]); [..|by apply elem_of_nil in H];
  simplify_eq.

(** Proves a membership in a literal list. *)
Ltac in_list :=
  solve [apply list_elem_of_In; simpl; repeat (first [left; reflexivity | right])].

(** Splits a click into the paths [handleUpload] can take. *)
Ltac upload_cases p f w :=
  unfold handleUpload, failReading, failCatching, parseAndImport, complete, insertRows;
  destruct (text f) as [?content|?err|] eqn:?Htext;
  [destruct (String.eqb_spec (tableName p) "students") as [?Hs|?Hs];
   [destruct (fetchTableData w (tableName p)) as [[?existing|]|?err|] eqn:?Hfetch|];
   try (destruct (papaParse w _) as [[|?first ?others] [|?row ?rows]|?msg] eqn:?Hparse;
        cbn [andb];
        try (destruct (validateStudentData _ _) as [|?e ?errs] eqn:?Hval;
             cbn [length Nat.ltb Nat.leb]);
        try (destruct (bulkInsert w _ _) as [[[] ?msg]|?err|] eqn:?Hins;
             try destruct (onClose p) eqn:?Hclose))
  | | ].

(** Evaluates an observation on a trace without touching the rows. *)
Ltac observe :=
  cbn -[processRow imap validateStudentData validationReport classify messageOr
        String.append].

(** Refutes a membership in a literal trace. *)
Ltac not_in_trace :=
  let Hin := fresh "Hin" in
  intros Hin;
  repeat (apply elem_of_cons in Hin as [Hin|Hin]; [discriminate Hin|]);
  by apply elem_of_nil in Hin.

Import Examples.

(** * Properties *)

(** ** Strings *)

Section Strings.
Implicit Types (s t : string) (c : ascii).

Lemma append_empty_inv s1 s2 : s1 +:+ s2 = "" → s1 = "" ∧ s2 = "".
Proof. destruct s1; intros Heq; [split; [done|exact Heq]|discriminate Heq]. Qed.

Lemma append_cons_inv s1 s2 c s :
  s1 +:+ s2 = String c s →
  (s1 = "" ∧ s2 = String c s) ∨ (∃ s1', s1 = String c s1' ∧ s = s1' +:+ s2).
Proof.
  destruct s1 as [|c1 s1]; intros Heq; [left; split; [done|exact Heq]|].
  injection Heq as -> <-. right. by exists s1.
Qed.

Lemma append_nonempty_r s t : t ≠ "" → s +:+ t ≠ "".
Proof. intros Ht Heq. by apply append_empty_inv in Heq as [_ ?]. Qed.

Lemma append_empty_r s : s +:+ "" = s.
Proof.
  induction s as [|c s IH]; [done|].
  change (String c (s +:+ "") = String c s). by rewrite IH.
Qed.

End Strings.

(** ** The built-ins on sample inputs *)

Example Number_samples :
  Number "abc" = NaN ∧ Number "12" = Decimal false 12 0 ∧
  Number " -3.50e2 " = Decimal true 350 0 ∧ Number "" = Decimal false 0 0 ∧
  Number "   " = Decimal false 0 0 ∧ Number "0x1F" = Decimal false 31 0 ∧
  Number "1e" = NaN ∧ Number "." = NaN ∧ Number ".5" = Decimal false 5 (-1) ∧
  Number "5." = Decimal false 5 0 ∧ Number "-Infinity" = Infinity true ∧
  Number "12px" = NaN ∧ Number "-0x10" = NaN ∧ Number "1 2" = NaN.
Proof. repeat split; reflexivity. Qed.

Example toISOString_samples :
  toISOString 0 = "1970-01-01T00:00:00.000Z" ∧
  toISOString 1709210096789 = "2024-02-29T12:34:56.789Z" ∧
  toISOString (-1) = "1969-12-31T23:59:59.999Z" ∧
  toISOString 253402300800000 = "+010000-01-01T00:00:00.000Z" ∧
  toISOString (-62198755200000) = "-000001-01-01T00:00:00.000Z".
Proof. repeat split; vm_compute; reflexivity. Qed.

Example string_samples :
  split "," "Monday, Wednesday" = ["Monday"; " Wednesday"] ∧
  split "," "" = [""] ∧ split "," "a,,b," = ["a"; ""; "b"; ""] ∧
  trim "  a b  " = "a b" ∧ trim "   " = "" ∧
  startsWith "[a]" "[" = true ∧ endsWith "[a]" "]" = true ∧ endsWith "[a] " "]" = false ∧
  includes "x duplicate key value y" "duplicate key value" = true ∧
  includes "duplicate key" "duplicate key value" = false ∧
  join "," ["a"; "b"; "c"] = "a,b,c".
Proof. repeat split; reflexivity. Qed.

Example emailPattern_samples :
  test emailPattern "bob@example.com" = true ∧ test emailPattern "bob@example" = false ∧
  test emailPattern "a@b.c.d" = true ∧ test emailPattern "a b@c.de" = false ∧
  test emailPattern "a@@b.c" = false ∧ test emailPattern "@b.c" = false ∧
  test emailPattern "a@b." = false ∧ test emailPattern "a@.c" = false ∧
  test emailPattern " " = false.
Proof. repeat split; reflexivity. Qed.

(** ** Trimming removes the white space at both ends and nothing else *)

Section Trim.
Implicit Types (s t : string) (c : ascii).

Lemma isBlankText_nil : isBlankText "".
Proof. intros c Hc. by apply elem_of_nil in Hc. Qed.

Lemma isBlankText_cons c s : isWhiteSpace c = true → isBlankText s → isBlankText (String c s).
Proof.
  intros Hc Hs c' Hc'. change (c' ∈ c :: String.list_ascii_of_string s) in Hc'.
  apply elem_of_cons in Hc' as [->|Hc']; [done|by apply Hs].
Qed.

Lemma trimStart_spec s : ∃ l, s = l +:+ trimStart s ∧ isBlankText l.
Proof.
  induction s as [|c s (l & Hl & Hblank)]; simpl.
  - exists "". split; [done|apply isBlankText_nil].
  - destruct (isWhiteSpace c) eqn:Hc.
    + exists (String c l). split; [|by apply isBlankText_cons].
      change (String c s = String c (l +:+ trimStart s)). by rewrite <- Hl.
    + exists "". split; [done|apply isBlankText_nil].
Qed.

Lemma trimStart_head s c t : trimStart s = String c t → isWhiteSpace c = false.
Proof.
  induction s as [|c' s IH]; simpl; [done|].
  destruct (isWhiteSpace c') eqn:Hc'; [done|]. by intros [= <- _].
Qed.

Lemma trimEnd_spec s : ∃ r, s = trimEnd s +:+ r ∧ isBlankText r.
Proof.
  induction s as [|c s (r & Hr & Hblank)]; simpl.
  - exists "". split; [done|apply isBlankText_nil].
  - destruct (trimEnd s) as [|c' t] eqn:Ht.
    + destruct (isWhiteSpace c) eqn:Hc.
      * exists (String c s). split; [done|]. apply isBlankText_cons; [done|].
        by rewrite Hr.
      * exists r. split; [|done]. change (String c s = String c ("" +:+ r)). by rewrite <- Hr.
    + exists r. split; [|done].
      change (String c s = String c (String c' t +:+ r)). by rewrite <- Hr.
Qed.

Lemma trimEnd_last s : ∀ t c, trimEnd s = t +:+ String c "" → isWhiteSpace c = false.
Proof.
  induction s as [|c' s IH]; intros t c; simpl.
  - intros Heq. symmetry in Heq. by apply append_empty_inv in Heq as [_ ?].
  - destruct (trimEnd s) as [|c'' u] eqn:Hu.
    + destruct (isWhiteSpace c') eqn:Hc'.
      * intros Heq. symmetry in Heq. by apply append_empty_inv in Heq as [_ ?].
      * intros Heq. symmetry in Heq.
        apply append_cons_inv in Heq as [[-> [= ->]]|(t' & -> & Heq)]; [done|].
        symmetry in Heq. by apply append_empty_inv in Heq as [_ ?].
    + intros Heq. symmetry in Heq.
      apply append_cons_inv in Heq as [[-> [=]]|(t' & -> & Heq)].
      by apply (IH t').
Qed.

Lemma trimEnd_head s c t :
  trimEnd s = String c t → ∃ s', s = String c s'.
Proof.
  destruct s as [|c' s]; simpl; [done|].
  destruct (trimEnd s); [destruct (isWhiteSpace c')|]; intros [= <- _]; by eexists.
Qed.

(** [trim s] is [s] without a blank text before and a blank text after,
    and neither starts nor ends with white space. *)
Lemma trim_spec s :
  (∃ l r, s = l +:+ trim s +:+ r ∧ isBlankText l ∧ isBlankText r) ∧
  (∀ c t, trim s = String c t → isWhiteSpace c = false) ∧
  (∀ t c, trim s = t +:+ String c "" → isWhiteSpace c = false).
Proof.
  unfold trim. split; [|split].
  - destruct (trimStart_spec s) as (l & Hl & Hbl).
    destruct (trimEnd_spec (trimStart s)) as (r & Hr & Hbr).
    exists l, r. split; [|done]. by rewrite <- Hr.
  - intros c t Heq. destruct (trimEnd_head _ _ _ Heq) as [s' Hs'].
    by apply (trimStart_head s c s').
  - apply trimEnd_last.
Qed.

End Trim.

(** ** The validator as a list of rule violations *)

Section Validator.
Implicit Types (st : State) (row : RawRecord) (rows : list RawRecord)
  (existingIds seen : gset Ident) (e : ValidationError).

(** A loop that pushes one error per offending field appends the errors of
    the offending fields, in field order, and leaves [seenIds] alone. *)
Lemma foldl_push (offends : string → bool) (mk : string → ValidationError) fields st :
  foldl (λ st field, if offends field then push (mk field) st else st) st fields
  = {| errors := errors st ++ (mk <$> filter (λ f, offends f = true) fields);
       seenIds := seenIds st |}.
Proof.
  revert st. induction fields as [|f fields IH]; intros st; simpl.
  - rewrite app_nil_r. by destruct st.
  - rewrite IH, filter_cons. destruct (offends f) eqn:Hf; simpl.
    + by rewrite <- app_assoc.
    + done.
Qed.

Lemma trim_empty_string : trim "" = "".
Proof. reflexivity. Qed.

Lemma isMissing_blank cell : isMissing cell = blank cell.
Proof.
  destruct cell as [v|]; simpl; [|done].
  destruct (String.eqb_spec v "") as [->|]; done.
Qed.

Lemma Number_blank v : trim v = "" → Number v = Decimal false 0 0.
Proof. unfold Number. by intros ->. Qed.

Lemma badNumber_spec row field earlier existingIds :
  badNumber (row !! field) = violates earlier existingIds row (NumericShape field).
Proof.
  simpl. destruct (row !! field) as [v|]; simpl; [|done].
  destruct (String.eqb_spec (trim v) "") as [Hb|Hb]; simpl.
  - rewrite (Number_blank v Hb). simpl. by rewrite !andb_false_r.
  - destruct (String.eqb_spec v "") as [->|]; [done|]. done.
Qed.

Lemma elem_of_seenAfter id earlier :
  IdStr id ∈ seenAfter earlier ↔ Some id ∈ identifier <$> earlier.
Proof.
  unfold seenAfter. rewrite elem_of_list_to_set, list_elem_of_omap, list_elem_of_fmap.
  split.
  - intros (row & Hrow & Hid). exists row. split; [|done].
    destruct (identifier row); simplify_eq/=. done.
  - intros (row & Hid & Hrow). exists row. split; [done|]. by rewrite <- Hid.
Qed.

Lemma seenAfter_snoc earlier row :
  seenAfter (earlier ++ [row]) =
  match identifier row with
  | Some id => {[IdStr id]} ∪ seenAfter earlier
  | None => seenAfter earlier
  end.
Proof.
  unfold seenAfter. rewrite omap_app, list_to_set_app_L. simpl.
  destruct (identifier row); simpl.
  - rewrite (right_id_L ∅ (∪)). apply (comm_L (∪)).
  - apply (right_id_L ∅ (∪)).
Qed.

Lemma filter_rules_fmap (mk : string → Rule) (P : Rule → bool) (g : Rule → ValidationError) (fields : list string) :
  g <$> filter (λ rule, P rule = true) (mk <$> fields)
  = (λ f, g (mk f)) <$> filter (λ f, P (mk f) = true) fields.
Proof.
  induction fields as [|f fields IH]; [done|].
  rewrite fmap_cons, !filter_cons. destruct (P (mk f)) eqn:HP; simpl.
  - f_equal. exact IH.
  - exact IH.
Qed.

Lemma checkRequired_spec index row st earlier existingIds :
  checkRequired index row st
  = {| errors := errors st ++
         (ruleError index row <$>
            filter (λ rule, violates earlier existingIds row rule = true)
                   (RequiredField <$> requiredFields));
       seenIds := seenIds st |}.
Proof.
  unfold checkRequired. rewrite foldl_push, filter_rules_fmap.
  do 3 f_equal. apply list_filter_iff. intros f. by rewrite isMissing_blank.
Qed.

Lemma checkNumeric_spec index row st earlier existingIds :
  checkNumeric index row st
  = {| errors := errors st ++
         (ruleError index row <$>
            filter (λ rule, violates earlier existingIds row rule = true)
                   (NumericShape <$> numericFields));
       seenIds := seenIds st |}.
Proof.
  unfold checkNumeric. rewrite foldl_push, filter_rules_fmap.
  do 3 f_equal. apply list_filter_iff. intros f.
  by rewrite (badNumber_spec row f earlier existingIds).
Qed.

Lemma checkEmail_spec index row column st earlier existingIds :
  checkEmail index row column st
  = {| errors := errors st ++
         (ruleError index row <$>
            filter (λ rule, violates earlier existingIds row rule = true)
                   [EmailFormat column]);
       seenIds := seenIds st |}.
Proof.
  unfold checkEmail, badEmail. rewrite filter_cons, filter_nil. simpl.
  destruct (row !! column) as [v|]; simpl.
  - destruct (negb (v =? "")%string && negb (test emailPattern v)); simpl; [done|].
    rewrite app_nil_r. by destruct st.
  - rewrite app_nil_r. by destruct st.
Qed.

Lemma identifier_Some row id :
  row !! "student_id" = Some id → id ≠ "" → identifier row = Some id.
Proof.
  intros Hcell Hid. unfold identifier. rewrite Hcell.
  by destruct (String.eqb_spec id "").
Qed.

Lemma identifier_None_absent row : row !! "student_id" = None → identifier row = None.
Proof. intros Hcell. unfold identifier. by rewrite Hcell. Qed.

Lemma identifier_None_empty row : row !! "student_id" = Some "" → identifier row = None.
Proof. intros Hcell. unfold identifier. by rewrite Hcell. Qed.

Lemma identifier_Some_inv row id :
  identifier row = Some id → row !! "student_id" = Some id ∧ id ≠ "".
Proof.
  unfold identifier. destruct (row !! "student_id") as [v|]; [|done].
  destruct (String.eqb_spec v "") as [->|Hv]; [done|]. by intros [= ->].
Qed.

Lemma checkStudentId_spec existingIds index row st earlier :
  seenIds st = seenAfter earlier →
  checkStudentId existingIds index row st
  = {| errors := errors st ++
         (ruleError index row <$>
            filter (λ rule, violates earlier existingIds row rule = true)
                   [IntraFileDuplicate; CrossStoreDuplicate]);
       seenIds := seenAfter (earlier ++ [row]) |}.
Proof.
  intros Hseen. unfold checkStudentId.
  rewrite seenAfter_snoc, !filter_cons, filter_nil. simpl.
  destruct (row !! "student_id") as [id|] eqn:Hcell.
  2:{ rewrite (identifier_None_absent row Hcell). simpl.
      rewrite app_nil_r, <- Hseen. by destruct st. }
  destruct (String.eqb_spec id "") as [->|Hid].
  { rewrite (identifier_None_empty row Hcell). simpl.
    rewrite app_nil_r, <- Hseen. by destruct st. }
  rewrite (identifier_Some row id Hcell Hid), Hseen.
  pose proof (elem_of_seenAfter id earlier) as Hiff.
  destruct (decide (IdStr id ∈ seenAfter earlier)) as [Hin|Hin];
    destruct (decide (IdStr id ∈ existingIds)) as [Hex|Hex]; simpl.
  all: rewrite ?(bool_decide_eq_true_2 _ Hex), ?(bool_decide_eq_false_2 _ Hex).
  all: try rewrite (bool_decide_eq_true_2 (Some id ∈ identifier <$> earlier)) by (by apply Hiff).
  all: try rewrite (bool_decide_eq_false_2 (Some id ∈ identifier <$> earlier)) by (by rewrite <- Hiff).
  all: unfold push, addSeen; simpl; rewrite ?app_nil_r, <- ?app_assoc; simpl.
  all: rewrite ?(identifier_Some row id Hcell Hid); simpl; f_equal.
  all: rewrite ?Hseen; try done.
  all: apply set_eq; intros x; rewrite elem_of_union, elem_of_singleton.
  all: split; [by right | by intros [->|?]].
Qed.

(** One pass of the row callback appends the errors of the violated rules,
    in rule order, and records the row's identifier. *)
Lemma checkRow_spec existingIds index row st earlier :
  seenIds st = seenAfter earlier →
  checkRow existingIds index row st
  = {| errors := errors st ++ rowErrors earlier existingIds index row;
       seenIds := seenAfter (earlier ++ [row]) |}.
Proof.
  intros Hseen. unfold checkRow, rowErrors, rules. cbv zeta.
  rewrite (checkRequired_spec _ _ _ earlier existingIds).
  rewrite (checkStudentId_spec _ _ _ _ earlier) by done.
  rewrite !(checkEmail_spec _ _ _ _ earlier existingIds).
  rewrite (checkNumeric_spec _ _ _ earlier existingIds). simpl errors. simpl seenIds.
  f_equal. rewrite <- !app_assoc. f_equal.
  change [IntraFileDuplicate; CrossStoreDuplicate; EmailFormat "student_email"; EmailFormat "parents_email"]
    with ([IntraFileDuplicate; CrossStoreDuplicate] ++ [EmailFormat "student_email"] ++ [EmailFormat "parents_email"]).
  by rewrite !filter_app, !fmap_app, <- !app_assoc.
Qed.

(** The errors the loop adds from row [index] on, given the rows before. *)
Lemma forEachRow_spec existingIds rows : ∀ index st earlier,
  seenIds st = seenAfter earlier →
  errors (forEachRow existingIds rows index st)
  = errors st ++
    mjoin (imap (λ i row, rowErrors (earlier ++ take i rows) existingIds (index + i) row) rows).
Proof.
  induction rows as [|row rows IH]; intros index st earlier Hseen; simpl.
  { by rewrite app_nil_r. }
  rewrite (IH (S index) _ (earlier ++ [row])).
  2:{ by rewrite (checkRow_spec _ _ _ _ earlier). }
  rewrite (checkRow_spec _ _ _ _ earlier) by done. simpl.
  rewrite app_nil_r, Nat.add_0_r, <- app_assoc. do 2 f_equal.
  f_equal. apply imap_ext. intros i r _. simpl.
  by rewrite <- app_assoc, Nat.add_succ_r.
Qed.

(** [validateStudentData] returns the violated rules of every row: rows in
    file order, rules in evaluation order. *)
Lemma validateStudentData_fileErrors rows existingIds :
  validateStudentData rows existingIds = fileErrors rows existingIds.
Proof.
  unfold validateStudentData, fileErrors.
  rewrite (forEachRow_spec existingIds rows 0 _ []) by done. done.
Qed.

Lemma elem_of_fileErrors e rows existingIds :
  e ∈ fileErrors rows existingIds ↔
  ∃ index row rule,
    rows !! index = Some row ∧ rule ∈ rules ∧
    violates (take index rows) existingIds row rule = true ∧
    e = ruleError index row rule.
Proof.
  unfold fileErrors. rewrite list_elem_of_join. split.
  - intros (l & He & Hl). apply elem_of_lookup_imap in Hl as (i & row & -> & Hrow).
    unfold rowErrors in He. apply list_elem_of_fmap in He as (rule & -> & Hrule).
    apply list_elem_of_filter in Hrule as [Hv Hrule]. by exists i, row, rule.
  - intros (i & row & rule & Hrow & Hrule & Hv & ->).
    exists (rowErrors (take i rows) existingIds i row). split.
    + unfold rowErrors. apply list_elem_of_fmap_2. by apply list_elem_of_filter.
    + by apply (elem_of_lookup_imap_2 (λ index row, rowErrors (take index rows) existingIds index row)).
Qed.

End Validator.

(** ** Telling the errors apart by their text *)

Section Messages.
Implicit Types (row : RawRecord) (rule : Rule) (id : string).

Lemma errorOf_row index id rule : CsvUpload.row (errorOf index id rule) = (index + 1)%nat.
Proof. by destruct rule. Qed.

(** The text of an error after its [Row n: ] label. *)
Lemma errorOf_message index id rule :
  CsvUpload.message (errorOf index id rule) = rowLabel index +:+
    match rule with
    | RequiredField field => "Missing required field " +:+ quote +:+ field +:+ quote
    | IntraFileDuplicate =>
        "Duplicate student_id " +:+ quote +:+ id +:+ quote +:+ " found in CSV file"
    | CrossStoreDuplicate =>
        "student_id " +:+ quote +:+ id +:+ quote +:+ " already exists in the database"
    | EmailFormat column => "Invalid " +:+ column +:+ " format"
    | NumericShape field => "Invalid numeric value for " +:+ quote +:+ field +:+ quote
    end.
Proof. by destruct rule. Qed.

Lemma errorOf_index_inj i j id id' rule rule' :
  errorOf i id rule = errorOf j id' rule' → i = j.
Proof.
  intros Heq. apply (f_equal CsvUpload.row) in Heq.
  rewrite !errorOf_row in Heq. lia.
Qed.

(** Two rules never produce the same error for a row; this also holds for
    the numeric-shape rule on the two columns only the coercion treats as
    numeric. *)
Lemma errorOf_rule_inj index id id' rule rule' :
  rule ∈ rules ++ (NumericShape <$> coercedNumericKeys) →
  rule' ∈ rules ++ (NumericShape <$> coercedNumericKeys) →
  errorOf index id rule = errorOf index id' rule' → rule = rule'.
Proof.
  intros Hr Hr' Heq. apply (f_equal CsvUpload.message) in Heq.
  rewrite !errorOf_message in Heq.
  apply (inj (String.app (rowLabel index))) in Heq.
  unfold rules, requiredFields, numericFields, coercedNumericKeys in Hr, Hr'.
  destruct rule, rule'; try reflexivity; try (vm_compute in Heq; discriminate).
  all: rule_cases Hr; rule_cases Hr'; try reflexivity; vm_compute in Heq; discriminate.
Qed.

Lemma rules_subseteq rule : rule ∈ rules → rule ∈ rules ++ (NumericShape <$> coercedNumericKeys).
Proof. intros Hr. apply elem_of_app. by left. Qed.

End Messages.

Section ValidatorMembership.
Implicit Types (row : RawRecord) (rows : list RawRecord) (rule : Rule)
  (existingIds : gset Ident) (e : ValidationError).

Lemma elem_of_validateStudentData e rows existingIds :
  e ∈ validateStudentData rows existingIds ↔
  ∃ index row rule,
    rows !! index = Some row ∧ rule ∈ rules ∧
    violates (take index rows) existingIds row rule = true ∧
    e = ruleError index row rule.
Proof. rewrite validateStudentData_fileErrors. apply elem_of_fileErrors. Qed.

(** An error of the shape of a rule is in the list exactly when the row of
    that number violates that rule. *)
Lemma errorOf_elem_of rows existingIds index row id rule :
  rows !! index = Some row →
  rule ∈ rules ++ (NumericShape <$> coercedNumericKeys) →
  errorOf index id rule ∈ validateStudentData rows existingIds →
  rule ∈ rules ∧ violates (take index rows) existingIds row rule = true.
Proof.
  intros Hrow Hrule (i & row' & rule' & Hrow' & Hrule' & Hv & Heq)%elem_of_validateStudentData.
  unfold ruleError in Heq.
  pose proof (errorOf_index_inj _ _ _ _ _ _ Heq) as <-.
  apply errorOf_rule_inj in Heq as ->; [|done|by apply rules_subseteq].
  by simplify_eq.
Qed.

Lemma ruleError_elem_of rows existingIds index row rule :
  rows !! index = Some row → rule ∈ rules →
  violates (take index rows) existingIds row rule = true →
  ruleError index row rule ∈ validateStudentData rows existingIds.
Proof. intros. apply elem_of_validateStudentData. by exists index, row, rule. Qed.

(** The stored identifiers are compared as the store returned them: a CSV
    cell is a string, so a store that holds numbers only raises no
    "already exists" error. *)
Lemma stored_numbers_never_match rows existingIds e :
  (∀ id, IdStr id ∉ existingIds) →
  e ∈ validateStudentData rows existingIds →
  ∀ index id, e ≠ existsError index id.
Proof.
  intros Hnone (i & row & rule & Hrow & Hrule & Hv & ->)%elem_of_validateStudentData index id Heq.
  change (existsError index id) with (errorOf index id CrossStoreDuplicate) in Heq.
  unfold ruleError in Heq.
  pose proof (errorOf_index_inj _ _ _ _ _ _ Heq) as <-.
  apply errorOf_rule_inj in Heq as ->; [|by apply rules_subseteq|in_list].
  simpl in Hv. destruct (identifier row) as [id'|]; [|done].
  apply bool_decide_eq_true_1 in Hv. by apply (Hnone id').
Qed.

Lemma two_elements {A} (x y : A) (l : list A) : x ∈ l → y ∈ l → x ≠ y → (2 ≤ length l)%nat.
Proof.
  destruct l as [|a [|b l]]; simpl; intros Hx Hy Hne; [by apply elem_of_nil in Hx| |lia].
  apply list_elem_of_singleton in Hx, Hy. congruence.
Qed.

End ValidatorMembership.

(** ** Regular expressions: the matcher decides the language *)

Section Regex.
Implicit Types (r : regex) (s : string) (c : ascii).

Lemma nullable_Matches r : nullable r = true ↔ Matches r "".
Proof.
  induction r as [| |p|r1 IH1 r2 IH2|r1 IH1 r2 IH2|r IH]; simpl.
  - split; [done|]. inversion 1.
  - split; [constructor|done].
  - split; [done|]. inversion 1.
  - rewrite andb_true_iff, IH1, IH2. split.
    + intros [H1 H2]. exact (MatchesSeq _ _ "" "" H1 H2).
    + inversion 1 as [| |? ? s1 s2 H1 H2 Heq| | | |]; subst.
      match goal with H : _ +:+ _ = "" |- _ => apply append_empty_inv in H as [-> ->] end.
      done.
  - rewrite orb_true_iff, IH1, IH2. split.
    + intros [?|?]; [by apply MatchesAltL|by apply MatchesAltR].
    + inversion 1; subst; auto.
  - split; [constructor|done].
Qed.

Lemma Matches_Star_cons r c s :
  Matches (Star r) (String c s) →
  ∃ s1 s2, s = s1 +:+ s2 ∧ Matches r (String c s1) ∧ Matches (Star r) s2.
Proof.
  intros HM. remember (Star r) as r' eqn:Hr. remember (String c s) as s' eqn:Hs.
  revert s Hs. induction HM as [| | | | | |r0 s1 s2 HM1 _ HM2 IH]; try discriminate.
  all: intros s Hs; try discriminate.
  injection Hr as ->.
  apply append_cons_inv in Hs as [[-> ->]|(s1' & -> & ->)].
  - by apply IH.
  - by exists s1', s2.
Qed.

Lemma deriv_Matches r : ∀ c s, Matches (deriv c r) s ↔ Matches r (String c s).
Proof.
  induction r as [| |p|r1 IH1 r2 IH2|r1 IH1 r2 IH2|r IH]; intros c s; simpl.
  - split; inversion 1.
  - split; inversion 1.
  - destruct (p c) eqn:Hp; split.
    + inversion 1; subst. by constructor.
    + inversion 1; subst. constructor.
    + inversion 1.
    + inversion 1; subst. congruence.
  - assert (Matches (Seq (deriv c r1) r2) s ↔
            ∃ s1 s2, s = s1 +:+ s2 ∧ Matches r1 (String c s1) ∧ Matches r2 s2) as Hleft.
    { split.
      - inversion 1; subst. eexists _, _. split; [done|]. split; [by apply IH1|done].
      - intros (s1 & s2 & -> & H1 & H2). constructor; [by apply IH1|done]. }
    split.
    + intros HM.
      assert ((∃ s1 s2, s = s1 +:+ s2 ∧ Matches r1 (String c s1) ∧ Matches r2 s2)
              ∨ (nullable r1 = true ∧ Matches r2 (String c s))) as [(s1 & s2 & -> & H1 & H2)|[Hn H2]].
      { destruct (nullable r1) eqn:Hn.
        - inversion HM; subst; [left; by apply Hleft|right; split; [done|by apply IH2]].
        - left. by apply Hleft. }
      * exact (MatchesSeq _ _ (String c s1) s2 H1 H2).
      * apply nullable_Matches in Hn. exact (MatchesSeq _ _ "" (String c s) Hn H2).
    + inversion 1 as [| |? ? s1 s2 H1 H2 Heq| | | |]; subst.
      match goal with H : _ +:+ _ = String _ _ |- _ =>
        apply append_cons_inv in H as [[-> ->]|(s1' & -> & ->)] end.
      * apply nullable_Matches in H1. rewrite H1. apply MatchesAltR. by apply IH2.
      * assert (Matches (Seq (deriv c r1) r2) (s1' +:+ s2)) as HS.
        { apply Hleft. by exists s1', s2. }
        destruct (nullable r1); [by apply MatchesAltL|done].
  - split.
    + inversion 1; subst; [apply MatchesAltL; by apply IH1|apply MatchesAltR; by apply IH2].
    + inversion 1; subst; [apply MatchesAltL; by apply IH1|apply MatchesAltR; by apply IH2].
  - split.
    + inversion 1 as [| |? ? s1 s2 H1 H2 Heq| | | |]; subst.
      apply IH in H1. exact (MatchesStarApp _ (String c s1) s2 H1 H2).
    + intros (s1 & s2 & -> & H1 & H2)%Matches_Star_cons.
      constructor; [by apply IH|done].
Qed.

(** [test] is membership in the language of the pattern. *)
Lemma test_Matches s : ∀ r, test r s = true ↔ Matches r s.
Proof.
  induction s as [|c s IH]; intros r; simpl.
  - apply nullable_Matches.
  - rewrite IH. apply deriv_Matches.
Qed.

Lemma Matches_Seq r1 r2 s :
  Matches (Seq r1 r2) s ↔ ∃ s1 s2, s = s1 +:+ s2 ∧ Matches r1 s1 ∧ Matches r2 s2.
Proof.
  split.
  - inversion 1; subst. by eexists _, _.
  - intros (s1 & s2 & -> & H1 & H2). by constructor.
Qed.

Lemma Matches_Class p s : Matches (Class p) s ↔ ∃ c, s = String c "" ∧ p c = true.
Proof.
  split.
  - inversion 1; subst. by eexists.
  - intros (c & -> & Hc). by constructor.
Qed.

Lemma Matches_Star_Class p s :
  Matches (Star (Class p)) s ↔ ∀ c, c ∈ String.list_ascii_of_string s → p c = true.
Proof.
  split.
  - intros HM. remember (Star (Class p)) as r eqn:Hr.
    induction HM as [| | | | | |r0 s1 s2 HM1 _ HM2 IH]; try discriminate.
    + intros c Hc. simpl in Hc. by apply elem_of_nil in Hc.
    + injection Hr as ->. apply Matches_Class in HM1 as (c1 & -> & Hc1).
      intros c Hc. change (c ∈ c1 :: String.list_ascii_of_string s2) in Hc.
      apply elem_of_cons in Hc as [->|Hc]; [done|by apply IH].
  - induction s as [|c s IH]; intros Hall; [constructor|].
    apply (MatchesStarApp _ (String c "") s).
    + constructor. apply Hall. simpl. apply elem_of_cons. by left.
    + apply IH. intros c' Hc'. apply Hall. simpl. apply elem_of_cons. by right.
Qed.

Lemma Matches_Plus_Class p s :
  Matches (Plus (Class p)) s ↔
  s ≠ "" ∧ ∀ c, c ∈ String.list_ascii_of_string s → p c = true.
Proof.
  unfold Plus. rewrite Matches_Seq. split.
  - intros (s1 & s2 & -> & (c & -> & Hc)%Matches_Class & H2). split; [done|].
    apply Matches_Star_Class. by apply (MatchesStarApp _ (String c "") s2); [constructor|].
  - intros [Hne Hall]. destruct s as [|c s]; [done|].
    exists (String c ""), s. split; [done|]. split.
    + constructor. apply Hall. simpl. apply elem_of_cons. by left.
    + apply Matches_Star_Class. intros c' Hc'. apply Hall. simpl. apply elem_of_cons. by right.
Qed.

Lemma Matches_emailAtom s : Matches (Plus emailAtom) s ↔ isWord s.
Proof.
  unfold emailAtom, isWord. rewrite Matches_Plus_Class.
  apply and_iff_compat_l. apply forall_proper; intros c.
  apply forall_proper; intros _.
  rewrite negb_true_iff, orb_false_iff.
  apply and_iff_compat_l. by destruct (Ascii.eqb_spec c "@").
Qed.

Lemma Matches_char c s :
  Matches (Class (Ascii.eqb c)) s ↔ s = String c "".
Proof.
  rewrite Matches_Class. split.
  - intros (c' & -> & Hc). by apply Ascii.eqb_eq in Hc as ->.
  - intros ->. exists c. split; [done|]. apply Ascii.eqb_refl.
Qed.

(** The strings the email pattern accepts are those of the shape
    [local@domain.tld]. *)
Lemma test_emailPattern s : test emailPattern s = true ↔ hasEmailShape s.
Proof.
  rewrite test_Matches. unfold emailPattern, hasEmailShape. split.
  - intros (loc & s1 & -> & Hloc & (at_ & s2 & -> & ->%Matches_char &
      (domain & s3 & -> & Hdomain & (dot & s4 & -> & ->%Matches_char & Htld)%Matches_Seq
      )%Matches_Seq)%Matches_Seq)%Matches_Seq.
    exists loc, domain, s4. by rewrite <- !Matches_emailAtom.
  - intros (loc & domain & tld & -> & Hloc & Hdomain & Htld).
    apply Matches_emailAtom in Hloc, Hdomain, Htld.
    repeat (constructor; [done || (by apply Matches_char)|]). done.
Qed.

End Regex.

(** ** Coercion *)

Section Coercion.
Context `{Host}.
Implicit Types (row : RawRecord) (key value v : string) (now : Z).

(** An ISO timestamp is never the empty string. *)
Lemma toISOString_nonempty t : toISOString t ≠ "".
Proof.
  unfold toISOString. destruct (civilFromDays (t / msPerDay)) as [[y m] d].
  apply append_nonempty_r. discriminate.
Qed.

Lemma coerceCell_empty key : coerceCell key "" = Null.
Proof. reflexivity. Qed.

(** What a date column is coerced to. *)
Lemma coerceCell_created_at v :
  v ≠ "" →
  coerceCell "created_at" v
  = Str (match Date_parse v with Some t => toISOString t | None => v end).
Proof.
  intros Hv. unfold coerceCell. destruct (String.eqb_spec v "") as [|_]; [done|].
  simpl. by destruct (Date_parse v).
Qed.

Lemma coerceCell_created_at_truthy v :
  v ≠ "" → truthy (Some (coerceCell "created_at" v)) = true.
Proof.
  intros Hv. rewrite coerceCell_created_at by done. simpl.
  apply negb_true_iff, String.eqb_neq.
  destruct (Date_parse v); [apply toISOString_nonempty|done].
Qed.

(** The record before the [created_at] stamp: the cells coerced key by key. *)
Lemma lookup_coerced row key :
  map_imap (λ key value, Some (coerceCell key value)) row !! key
  = coerceCell key <$> row !! key.
Proof. rewrite map_lookup_imap. by destruct (row !! key). Qed.

Lemma processRow_present now row v :
  row !! "created_at" = Some v → v ≠ "" →
  processRow now row = map_imap (λ key value, Some (coerceCell key value)) row.
Proof.
  intros Hrow Hv. unfold processRow. rewrite lookup_coerced, Hrow.
  change (coerceCell "created_at" <$> Some v) with (Some (coerceCell "created_at" v)).
  by rewrite coerceCell_created_at_truthy.
Qed.

Lemma processRow_stamped now row :
  truthyCell (row !! "created_at") = false →
  processRow now row
  = <["created_at" := Str (toISOString now)]>
      (map_imap (λ key value, Some (coerceCell key value)) row).
Proof.
  intros Hrow. unfold processRow. rewrite lookup_coerced.
  destruct (row !! "created_at") as [v|]; simpl in *; [|done].
  apply negb_false_iff, String.eqb_eq in Hrow as ->. done.
Qed.

(** Without a [created_at] cell the record carries the clock reading. *)
Lemma processRow_clock now row :
  truthyCell (row !! "created_at") = false →
  processRow now row !! "created_at" = Some (Str (toISOString now)).
Proof. intros Hrow. rewrite processRow_stamped by done. apply lookup_insert_eq. Qed.

(** Every coerced record carries a non-empty [created_at] text. *)
Lemma processRow_created_at now row :
  ∃ stamp, processRow now row !! "created_at" = Some (Str stamp) ∧ stamp ≠ "".
Proof.
  destruct (row !! "created_at") as [v|] eqn:Hrow.
  - destruct (String.eqb_spec v "") as [->|Hv].
    + rewrite processRow_stamped by (by rewrite Hrow).
      rewrite lookup_insert_eq. eexists. split; [done|apply toISOString_nonempty].
    + rewrite (processRow_present now row v) by done.
      rewrite lookup_coerced, Hrow. simpl. rewrite coerceCell_created_at by done.
      eexists. split; [done|]. destruct (Date_parse v); [apply toISOString_nonempty|done].
  - rewrite processRow_stamped by (by rewrite Hrow).
    rewrite lookup_insert_eq. eexists. split; [done|apply toISOString_nonempty].
Qed.

Lemma processRow_other now row key :
  key ≠ "created_at" → processRow now row !! key = coerceCell key <$> row !! key.
Proof.
  intros Hkey. unfold processRow.
  destruct (truthy _); [apply lookup_coerced|].
  rewrite lookup_insert_ne by done. apply lookup_coerced.
Qed.

Lemma hasKey_elem_of keys key : hasKey keys key = true ↔ key ∈ keys.
Proof.
  unfold hasKey. rewrite existsb_exists. split.
  - intros (k & Hk & ->%String.eqb_eq). by apply list_elem_of_In.
  - intros Hk. exists key. split; [by apply list_elem_of_In|apply String.eqb_refl].
Qed.

(** A numeric column whose text is not a numeric literal keeps its text. *)
Lemma coerceCell_not_numeric key v :
  key ∈ coercedNumericKeys → isNaN (Number v) = true → coerceCell key v = Str v.
Proof.
  intros Hkey Hnan. unfold coerceCell.
  destruct (String.eqb_spec v "") as [->|_]; [done|].
  rewrite Hnan, andb_false_r.
  unfold coercedNumericKeys in Hkey.
  repeat (apply elem_of_cons in Hkey as [->|Hkey]); try reflexivity.
  by apply elem_of_nil in Hkey.
Qed.

Lemma isNaN_Number_nonblank v : isNaN (Number v) = true → trim v ≠ "".
Proof. intros Hnan Hb. by rewrite (Number_blank v Hb) in Hnan. Qed.

End Coercion.

(** ** The upload as a trace *)

Section Upload.
Context `{Host}.
Implicit Types (p : Props) (w : World) (f : File) (rows : list RawRecord)
  (ids : gset Ident) (trace : list Event).

Lemma validateStudentData_nil ids : validateStudentData [] ids = [].
Proof. reflexivity. Qed.

(** Up to the [complete] callback: read the file, fetch the stored
    identifiers when the table is the students table, parse. *)
Lemma handleUpload_parsed p f w content ids parseErrors rows :
  text f = Returns content →
  fetchedIds p w = Some ids →
  papaParse w content = Complete parseErrors rows →
  handleUpload p (Some f) w
  = [SetIsUploading true; SetError None; ReadFile]
    ++ (if String.eqb (tableName p) "students" then [FetchTableData (tableName p)] else [])
    ++ PapaParse content :: complete p w ids parseErrors rows.
Proof.
  intros Htext Hids Hparse. unfold handleUpload, fetchedIds in *. rewrite Htext. simpl.
  destruct (String.eqb (tableName p) "students").
  - destruct (fetchTableData w (tableName p)) as [[existingData|]| |]; simplify_eq/=.
    + unfold parseAndImport. by rewrite Hparse.
    + unfold parseAndImport. by rewrite Hparse.
  - simplify_eq/=. unfold parseAndImport. by rewrite Hparse.
Qed.

(** A file that parses cleanly and passes validation goes on to the insert. *)
Lemma complete_valid p w ids rows :
  rows ≠ [] →
  (tableName p = "students" → validateStudentData rows ids = []) →
  complete p w ids [] rows = insertRows p w rows.
Proof.
  intros Hrows Hvalid. unfold complete. destruct rows as [|row rows]; [done|].
  destruct (String.eqb_spec (tableName p) "students") as [Hs|_]; [|done].
  by rewrite (Hvalid Hs).
Qed.

(** A students file with a validation error stops at the report. *)
Lemma complete_invalid p w ids rows :
  tableName p = "students" →
  validateStudentData rows ids ≠ [] →
  complete p w ids [] rows
  = [SetError (Some (validationReport (validateStudentData rows ids)));
     SetIsUploading false].
Proof.
  intros Hs Herrs. unfold complete. destruct rows as [|row rows]; [done|].
  rewrite Hs. simpl. destruct (validateStudentData (row :: rows) ids); done.
Qed.

Lemma bulkInsertCalls_insertRows p w rows :
  bulkInsertCalls (insertRows p w rows)
  = [(tableName p, imap (λ i row, processRow (clock w i) row) rows)].
Proof.
  unfold insertRows.
  destruct (bulkInsert w _ _) as [[[] msg]|err|]; simpl; [|done..].
  by destruct (onClose p).
Qed.

Lemma bulkInsertCalls_complete p w ids parseErrors rows :
  bulkInsertCalls (complete p w ids parseErrors rows) = [] ∨
  bulkInsertCalls (complete p w ids parseErrors rows)
  = [(tableName p, imap (λ i row, processRow (clock w i) row) rows)].
Proof.
  unfold complete. destruct parseErrors; [|by left]. destruct rows as [|row rows]; [by left|].
  destruct (_ && _); [by left|]. right. apply bulkInsertCalls_insertRows.
Qed.

(** One click makes at most one bulk-insert call, and it carries the
    coerced rows of the parsed file. *)
Lemma bulkInsertCalls_handleUpload p file w :
  bulkInsertCalls (handleUpload p file w) = [] ∨
  ∃ rows, bulkInsertCalls (handleUpload p file w)
          = [(tableName p, imap (λ i row, processRow (clock w i) row) rows)].
Proof.
  assert (∀ content ids,
    bulkInsertCalls (parseAndImport p w content ids) = [] ∨
    ∃ rows, bulkInsertCalls (parseAndImport p w content ids)
            = [(tableName p, imap (λ i row, processRow (clock w i) row) rows)]) as Hparse.
  { intros content ids. unfold parseAndImport.
    destruct (papaParse w content) as [parseErrors rows|msg]; [|by left].
    destruct (bulkInsertCalls_complete p w ids parseErrors rows) as [Hc|Hc].
    - left. exact Hc.
    - right. exists rows. exact Hc. }
  unfold handleUpload. destruct file as [f|]; [|by left].
  destruct (text f) as [content|err|]; [|by left..].
  destruct (String.eqb (tableName p) "students"); [|apply Hparse].
  destruct (fetchTableData w (tableName p)) as [[existingData|]|err|];
    [apply Hparse..|by left|by left].
Qed.

Lemma Forall_hasCreatedAt_processed w rows :
  Forall hasCreatedAt (imap (λ i row, processRow (clock w i) row) rows).
Proof.
  apply Forall_forall. intros record (i & row & -> & _)%elem_of_lookup_imap.
  apply processRow_created_at.
Qed.

Lemma reportedError_app trace1 trace2 m :
  reportedError trace2 = Some m → reportedError (trace1 ++ trace2) = Some m.
Proof. unfold reportedError. rewrite omap_app, last_app. by intros ->. Qed.

End Upload.

(** * The claims *)

Section ValidatorClaims.
Implicit Types (row : RawRecord) (rows : list RawRecord) (rule : Rule)
  (existingIds : gset Ident) (e : ValidationError).

(** C3.  For rows whose identifiers are A, B, A (identifiers are non-empty
    cell values) and a stored-identifier set that holds B, the validator
    reports an intra-file duplicate on the third row and none on the first,
    reports "already exists" on the second row, and whether a row gets the
    "already exists" error depends only on the stored set; the list has at
    least two errors. *)
Theorem C3_duplicates_A_B_A (r1 r2 r3 : RawRecord) (A B : string) existingIds :
  r1 !! "student_id" = Some A → r2 !! "student_id" = Some B →
  r3 !! "student_id" = Some A → A ≠ "" → B ≠ "" → IdStr B ∈ existingIds →
  duplicateError 2 A ∈ validateStudentData [r1; r2; r3] existingIds ∧
  row (duplicateError 2 A) = 3%nat ∧
  (∀ id, duplicateError 0 id ∉ validateStudentData [r1; r2; r3] existingIds) ∧
  existsError 1 B ∈ validateStudentData [r1; r2; r3] existingIds ∧
  row (existsError 1 B) = 2%nat ∧
  (existsError 0 A ∈ validateStudentData [r1; r2; r3] existingIds ↔ IdStr A ∈ existingIds) ∧
  (existsError 2 A ∈ validateStudentData [r1; r2; r3] existingIds ↔ IdStr A ∈ existingIds) ∧
  (2 ≤ length (validateStudentData [r1; r2; r3] existingIds))%nat.
Proof.
  intros H1 H2 H3 HA HB HBex.
  pose proof (identifier_Some r1 A H1 HA) as Hid1.
  pose proof (identifier_Some r2 B H2 HB) as Hid2.
  pose proof (identifier_Some r3 A H3 HA) as Hid3.
  assert (duplicateError 2 A ∈ validateStudentData [r1; r2; r3] existingIds) as Hdup.
  { change (duplicateError 2 A) with (errorOf 2 A IntraFileDuplicate).
    replace A with (default "" (identifier r3)) at 1 by (by rewrite Hid3).
    apply (ruleError_elem_of _ _ 2 r3 IntraFileDuplicate); [done|in_list|].
    simpl. rewrite Hid3, Hid1. apply bool_decide_eq_true_2. in_list. }
  assert (existsError 1 B ∈ validateStudentData [r1; r2; r3] existingIds) as Hex.
  { change (existsError 1 B) with (errorOf 1 B CrossStoreDuplicate).
    replace B with (default "" (identifier r2)) at 1 by (by rewrite Hid2).
    apply (ruleError_elem_of _ _ 1 r2 CrossStoreDuplicate); [done|in_list|].
    simpl. rewrite Hid2. by apply bool_decide_eq_true_2. }
  assert (∀ index r, [r1; r2; r3] !! index = Some r → identifier r = Some A →
            existsError index A ∈ validateStudentData [r1; r2; r3] existingIds
            ↔ IdStr A ∈ existingIds) as Hiff.
  { intros index r Hr Hid. split.
    - intros Hin. apply (errorOf_elem_of _ _ index r A CrossStoreDuplicate) in Hin as [_ Hv];
        [|done|in_list].
      simpl in Hv. rewrite Hid in Hv. by apply bool_decide_eq_true_1 in Hv.
    - intros HAex. change (existsError index A) with (errorOf index A CrossStoreDuplicate).
      replace A with (default "" (identifier r)) at 1 by (by rewrite Hid).
      apply (ruleError_elem_of _ _ index r CrossStoreDuplicate); [done|in_list|].
      simpl. rewrite Hid. by apply bool_decide_eq_true_2. }
  repeat split; try done.
  - intros id Hin.
    apply (errorOf_elem_of _ _ 0 r1 id IntraFileDuplicate) in Hin as [_ Hv]; [|done|in_list].
    simpl in Hv. by rewrite Hid1 in Hv.
  - by apply (Hiff 0%nat r1).
  - by apply (Hiff 0%nat r1).
  - by apply (Hiff 2%nat r3).
  - by apply (Hiff 2%nat r3).
  - apply (two_elements _ _ _ Hdup Hex). intros Heq.
    apply (f_equal row) in Heq. simpl in Heq. lia.
Qed.


(** C4.  The validator short-circuits nowhere: its result is the list of
    the violated rules of every row, rows in file order and rules in
    evaluation order within a row; an error is in the list exactly when its
    rule is violated on its row; a row that lacks a required field and
    repeats an identifier gets two different errors. *)
Theorem C4_no_short_circuit rows existingIds :
  validateStudentData rows existingIds
  = mjoin (imap (λ index row,
                   ruleError index row <$>
                     filter (λ rule, violates (take index rows) existingIds row rule = true) rules)
                rows) ∧
  (∀ index row rule,
      rows !! index = Some row → rule ∈ rules →
      (violates (take index rows) existingIds row rule = true ↔
       ruleError index row rule ∈ validateStudentData rows existingIds)) ∧
  (∀ index row field id,
      rows !! index = Some row → field ∈ requiredFields →
      blank (row !! field) = true →
      identifier row = Some id → Some id ∈ identifier <$> take index rows →
      missingFieldError index field ∈ validateStudentData rows existingIds ∧
      duplicateError index id ∈ validateStudentData rows existingIds ∧
      missingFieldError index field ≠ duplicateError index id).
Proof.
  split; [apply validateStudentData_fileErrors|]. split.
  - intros index row rule Hrow Hrule. split.
    + by apply ruleError_elem_of.
    + intros Hin. by apply (errorOf_elem_of _ _ index row) in Hin as [_ ?];
        [|done|apply rules_subseteq].
  - intros index row field id Hrow Hfield Hblank Hid Hseen. split; [|split].
    + apply (ruleError_elem_of _ _ index row (RequiredField field)); [done| |done].
      unfold rules. apply elem_of_app. left. by apply list_elem_of_fmap_2.
    + change (duplicateError index id) with (errorOf index id IntraFileDuplicate).
      replace id with (default "" (identifier row)) at 1 by (by rewrite Hid).
      apply (ruleError_elem_of _ _ index row IntraFileDuplicate); [done|in_list|].
      simpl. rewrite Hid. by apply bool_decide_eq_true_2.
    + intros Heq. apply (f_equal CsvUpload.message) in Heq.
      apply (inj (String.app (rowLabel index))) in Heq. vm_compute in Heq. discriminate.
Qed.

(** C8.  For each of the two email columns, a non-empty value that has the
    shape local@domain.tld raises no format error for its row and column,
    and one that has not raises it; "bob@example" has not the shape,
    "bob@example.com" has. *)
Theorem C8_email_format rows existingIds index row (column v : string) :
  column ∈ ["student_email"; "parents_email"] →
  rows !! index = Some row → row !! column = Some v → v ≠ "" →
  (hasEmailShape v → emailFormatError index column ∉ validateStudentData rows existingIds) ∧
  (¬ hasEmailShape v → emailFormatError index column ∈ validateStudentData rows existingIds) ∧
  (test emailPattern v = true ↔ hasEmailShape v) ∧
  ¬ hasEmailShape "bob@example" ∧ hasEmailShape "bob@example.com".
Proof.
  intros Hcol Hrow Hcell Hv.
  assert (EmailFormat column ∈ rules) as Hrule.
  { repeat (apply elem_of_cons in Hcol as [->|Hcol]); [in_list..|by apply elem_of_nil in Hcol]. }
  assert (violates (take index rows) existingIds row (EmailFormat column)
          = negb (test emailPattern v)) as Hviol.
  { simpl. rewrite Hcell. by destruct (String.eqb_spec v ""). }
  split; [|split; [|split; [|split]]].
  - intros Hshape Hin.
    apply (errorOf_elem_of _ _ index row "" (EmailFormat column)) in Hin as [_ Hbad];
      [|done|by apply rules_subseteq].
    apply test_emailPattern in Hshape. rewrite Hviol, Hshape in Hbad. done.
  - intros Hshape.
    apply (ruleError_elem_of _ _ index row (EmailFormat column)); [done..|].
    rewrite Hviol. apply negb_true_iff, not_true_is_false. by rewrite test_emailPattern.
  - apply test_emailPattern.
  - rewrite <- test_emailPattern. by vm_compute.
  - apply test_emailPattern. by vm_compute.
Qed.

(** C10.  A row whose [student_id] is missing or empty gets neither
    duplicate error, whatever the identifier quoted, and adds nothing to
    the identifiers later rows are compared with; [student_id] is not a
    required field, so such a row that violates no other rule gets no
    error at all. *)
Theorem C10_blank_identifier_skipped rows existingIds index row :
  rows !! index = Some row → truthyCell (row !! "student_id") = false →
  (∀ id, (duplicateError index id ∉ validateStudentData rows existingIds) ∧
         (existsError index id ∉ validateStudentData rows existingIds)) ∧
  seenAfter (take (S index) rows) = seenAfter (take index rows) ∧
  ("student_id" ∉ requiredFields) ∧
  ((∀ rule, rule ∈ rules → rule ≠ IntraFileDuplicate → rule ≠ CrossStoreDuplicate →
            violates (take index rows) existingIds row rule = false) →
   ∀ e, e ∈ validateStudentData rows existingIds → CsvUpload.row e ≠ (index + 1)%nat).
Proof.
  intros Hrow Hcell.
  assert (identifier row = None) as Hid.
  { unfold identifier. destruct (row !! "student_id") as [id|]; [|done].
    simpl in Hcell. apply negb_false_iff in Hcell. by rewrite Hcell. }
  split; [|split; [|split]].
  - intros id. split; intros Hin.
    + apply (errorOf_elem_of _ _ index row id IntraFileDuplicate) in Hin as [_ Hv];
        [|done|in_list]. simpl in Hv. by rewrite Hid in Hv.
    + apply (errorOf_elem_of _ _ index row id CrossStoreDuplicate) in Hin as [_ Hv];
        [|done|in_list]. simpl in Hv. by rewrite Hid in Hv.
  - rewrite (take_S_r _ _ _ Hrow), seenAfter_snoc. by rewrite Hid.
  - unfold requiredFields. intros Hin.
    repeat (apply elem_of_cons in Hin as [?|Hin]; [done|]). by apply elem_of_nil in Hin.
  - intros Hother e (i & row' & rule & Hrow' & Hrule & Hv & ->)%elem_of_validateStudentData Hnum.
    unfold ruleError in Hnum. rewrite errorOf_row in Hnum.
    assert (i = index) as -> by lia. simplify_eq.
    destruct rule; try (simpl in Hv; by rewrite Hid in Hv).
    all: by rewrite Hother in Hv.
Qed.

End ValidatorClaims.


(** C3 on a sample file: Asha, Bala, then a row that repeats Asha's
    identifier, with Bala's identifier already stored. *)
Lemma C3_witness :
  asha !! "student_id" = Some "S-101" ∧ bala !! "student_id" = Some "S-102" ∧
  chitraRepeatsAsha !! "student_id" = Some "S-101" ∧
  duplicateError 2 "S-101" ∈ validateStudentData [asha; bala; chitraRepeatsAsha] {[IdStr "S-102"]} ∧
  existsError 1 "S-102" ∈ validateStudentData [asha; bala; chitraRepeatsAsha] {[IdStr "S-102"]}.
Proof.
  pose proof (C3_duplicates_A_B_A asha bala chitraRepeatsAsha "S-101" "S-102" {[IdStr "S-102"]}
                eq_refl eq_refl eq_refl) as Hclaim.
  destruct Hclaim as (Hdup & _ & _ & Hex & _); [discriminate|discriminate|by apply elem_of_singleton|].
  repeat split; assumption.
Defined.

(** C4 on a sample file: the second row repeats the first row's identifier
    and has an empty [student_email]. *)
Lemma C4_witness :
  [asha; repeatWithoutEmail] !! 1%nat = Some repeatWithoutEmail ∧
  blank (repeatWithoutEmail !! "student_email") = true ∧
  identifier repeatWithoutEmail = Some "S-101" ∧
  missingFieldError 1 "student_email" ∈ validateStudentData [asha; repeatWithoutEmail] ∅ ∧
  duplicateError 1 "S-101" ∈ validateStudentData [asha; repeatWithoutEmail] ∅ ∧
  missingFieldError 1 "student_email" ≠ duplicateError 1 "S-101".
Proof.
  destruct (C4_no_short_circuit [asha; repeatWithoutEmail] ∅) as (_ & _ & Hboth).
  assert ("student_email" ∈ requiredFields) as Hfield by in_list.
  assert (Some "S-101" ∈ identifier <$> take 1 [asha; repeatWithoutEmail]) as Hseen
    by (by apply list_elem_of_singleton).
  pose proof (Hboth 1%nat repeatWithoutEmail "student_email" "S-101"
                eq_refl Hfield eq_refl eq_refl Hseen) as (Hm & Hd & Hne).
  split; [reflexivity|]. split; [reflexivity|]. split; [reflexivity|]. by repeat split.
Defined.

(** C8 on two sample rows: one with the email "bob@example", one with a
    well-formed email. *)
Lemma C8_witness :
  [ashaBadEmail] !! 0%nat = Some ashaBadEmail ∧
  ashaBadEmail !! "student_email" = Some "bob@example" ∧
  emailFormatError 0 "student_email" ∈ validateStudentData [ashaBadEmail] ∅ ∧
  emailFormatError 0 "student_email" ∉ validateStudentData [asha] ∅.
Proof.
  assert ("student_email" ∈ ["student_email"; "parents_email"]) as Hcol by in_list.
  destruct (C8_email_format [ashaBadEmail] ∅ 0 ashaBadEmail "student_email" "bob@example"
              Hcol eq_refl eq_refl) as (_ & Hbad & _ & Hno & _); [discriminate|].
  destruct (C8_email_format [asha] ∅ 0 asha "student_email" "asha@example.com"
              Hcol eq_refl eq_refl) as (Hgood & _ & Hiff & _); [discriminate|].
  split; [reflexivity|]. split; [reflexivity|]. split; [by apply Hbad|].
  apply Hgood, Hiff. reflexivity.
Defined.

(** C10 on a sample file whose second row has no [student_id]. *)
Lemma C10_witness :
  [asha; dev] !! 1%nat = Some dev ∧ dev !! "student_id" = None ∧
  (∀ id, duplicateError 1 id ∉ validateStudentData [asha; dev] ∅) ∧
  validateStudentData [asha; dev] ∅ = [].
Proof.
  destruct (C10_blank_identifier_skipped [asha; dev] ∅ 1 dev eq_refl eq_refl)
    as (Hnone & _ & _ & _).
  split; [reflexivity|]. split; [reflexivity|]. split; [apply Hnone|by vm_compute].
Defined.

Section CoercionClaims.
Context `{Host}.
Implicit Types (row : RawRecord) (rows : list RawRecord) (existingIds : gset Ident)
  (key field v : string) (now : Z).

Lemma NumericShape_rules field : NumericShape field ∈ rules ↔ field ∈ numericFields.
Proof.
  unfold rules. rewrite !elem_of_app, !list_elem_of_fmap. split.
  - intros [(f & ? & _)|[Hmid|(f & [= ->] & Hf)]]; [done| |done].
    repeat (apply elem_of_cons in Hmid as [?|Hmid]; [done|]). by apply elem_of_nil in Hmid.
  - intros Hf. right. right. by exists field.
Qed.

(** C1 (as amended).  Coercion is a function of the record, the schema and
    the clock reading taken while the record is coerced.  For a record
    whose [created_at] cell is present and not empty the clock plays no
    part: two coercions give the same record, whatever the two clock
    readings, and every key holds its cell coerced by the schema alone. *)
Theorem C1_coercion_deterministic row (created : string) now1 now2 :
  row !! "created_at" = Some created → created ≠ "" →
  processRow now1 row = processRow now2 row ∧
  ∀ key, processRow now1 row !! key = coerceCell key <$> row !! key.
Proof.
  intros Hrow Hcreated.
  rewrite !(processRow_present _ row created) by done.
  split; [done|]. intros key. apply lookup_coerced.
Qed.

(** C2 (as amended).  In a column the coercion treats as numeric, a value
    that is no numeric literal is coerced to the same text.  For the six
    columns the validator treats as numeric it also raises the type error
    of that row and column; for the other two, [student_id] and
    [enrollment_year], the validator raises no type error. *)
Theorem C2_numeric_fallback rows existingIds index row field v :
  field ∈ coercedNumericKeys →
  rows !! index = Some row → row !! field = Some v → isNaN (Number v) = true →
  coerceCell field v = Str v ∧
  (field ∈ numericFields →
     numericError index field ∈ validateStudentData rows existingIds) ∧
  (field ∉ numericFields →
     (field = "student_id" ∨ field = "enrollment_year") ∧
     numericError index field ∉ validateStudentData rows existingIds).
Proof.
  intros Hkey Hrow Hcell Hnan. split; [by apply coerceCell_not_numeric|]. split.
  - intros Hfield.
    apply (ruleError_elem_of _ _ index row (NumericShape field)); [done| |].
    + by apply NumericShape_rules.
    + simpl. rewrite Hcell, Hnan, andb_true_r.
      apply negb_true_iff, String.eqb_neq. by apply isNaN_Number_nonblank.
  - intros Hfield. split.
    + unfold coercedNumericKeys, numericFields in *.
      repeat (apply elem_of_cons in Hkey as [->|Hkey]); [..|by apply elem_of_nil in Hkey].
      all: try (exfalso; apply Hfield; in_list).
      all: auto.
    + intros Hin.
      apply (errorOf_elem_of _ _ index row "" (NumericShape field)) in Hin as [Hrule _].
      * by apply Hfield, NumericShape_rules.
      * done.
      * apply elem_of_app. right. by apply list_elem_of_fmap_2.
Qed.

Lemma split_nonempty sep s : split sep s ≠ [].
Proof.
  destruct s as [|c s]; simpl; [done|].
  destruct (Ascii.eqb c sep); [done|]. by destruct (split sep s).
Qed.

Lemma join_cons sep p q rest :
  join sep (p :: q :: rest) = p +:+ sep +:+ join sep (q :: rest).
Proof. reflexivity. Qed.

(** Joining the pieces of a split with the separator gives the text back. *)
Lemma split_join sep s : join (String sep "") (split sep s) = s.
Proof.
  induction s as [|c s IH]; [done|]. simpl.
  pose proof (split_nonempty sep s) as Hne.
  destruct (split sep s) as [|h t]; [done|].
  destruct (Ascii.eqb_spec c sep) as [->|Hc].
  - rewrite join_cons, IH. reflexivity.
  - destruct t as [|h' t].
    + simpl in *. by rewrite IH.
    + rewrite join_cons. rewrite join_cons in IH. by rewrite <- IH.
Qed.

Lemma includes_sep_cons sep c s :
  includes (String c s) (String sep "") = Ascii.eqb sep c || includes s (String sep "").
Proof.
  simpl. destruct (Ascii.eqb_spec sep c) as [->|Hne].
  - destruct (ascii_dec c c); [|done]. by destruct s.
  - destruct (ascii_dec sep c); [done|]. done.
Qed.

(** No piece of a split holds the separator. *)
Lemma split_no_sep sep s :
  Forall (λ piece, includes piece (String sep "") = false) (split sep s).
Proof.
  induction s as [|c s IH]; simpl; [by repeat constructor|].
  destruct (Ascii.eqb_spec c sep) as [->|Hc].
  - constructor; [done|exact IH].
  - pose proof (split_nonempty sep s) as Hne.
    destruct (split sep s) as [|h t]; [done|].
    inversion IH as [|? ? Hh Ht]; subst. constructor; [|done].
    rewrite includes_sep_cons, Hh, orb_false_r. apply Ascii.eqb_neq. congruence.
Qed.

(** C7.  For an array-valued column: the empty cell becomes the absent
    marker, which is not the empty array; a bracketed text is what the
    JSON parser makes of it, an array, and the one-element array of the
    text when the parser throws; another text with a comma is split at the
    commas, the pieces, which rejoin to the text, trimmed; any other text
    is the one-element array of itself. *)
Theorem C7_array_coercion key v :
  key ∈ arrayKeys →
  coerceCell key "" = Null ∧ Null ≠ Arr [] ∧
  (v ≠ "" → startsWith v "[" && endsWith v "]" = true →
     (∀ parsed, JSON_parse v = Some parsed →
                coerceCell key v = parsed ∧ ∃ items, parsed = Arr items) ∧
     (JSON_parse v = None → coerceCell key v = Arr [Str v])) ∧
  (v ≠ "" → startsWith v "[" && endsWith v "]" = false → includes v "," = true →
     coerceCell key v = Arr (Str <$> (trim <$> split "," v)) ∧
     join "," (split "," v) = v ∧
     Forall (λ piece, includes piece "," = false) (split "," v)) ∧
  (v ≠ "" → startsWith v "[" && endsWith v "]" = false → includes v "," = false →
     coerceCell key v = Arr [Str v]) ∧
  coerceCell key "Monday, Wednesday" = Arr [Str "Monday"; Str "Wednesday"].
Proof.
  intros Hkey.
  assert (∀ value, value ≠ "" →
    coerceCell key value =
      if startsWith value "[" && endsWith value "]" then
        match JSON_parse value with Some parsed => parsed | None => Arr [Str value] end
      else if includes value "," then Arr (Str <$> (trim <$> split "," value))
      else Arr [Str value]) as Hcell.
  { intros value Hvalue. unfold coerceCell.
    destruct (String.eqb_spec value "") as [|_]; [done|].
    unfold arrayKeys in Hkey.
    repeat (apply elem_of_cons in Hkey as [->|Hkey]); [| |by apply elem_of_nil in Hkey].
    all: simpl; repeat case_match; try done.
    all: by rewrite <- list_fmap_compose. }
  split; [done|]. split; [done|]. split; [|split; [|split]].
  - intros Hv Hbr. rewrite (Hcell v Hv), Hbr. split.
    + intros parsed Hparse. rewrite Hparse. split; [done|].
      apply (JSON_parse_bracket v parsed); [|done]. by apply andb_true_iff in Hbr as [? _].
    + by intros ->.
  - intros Hv Hbr Hcomma. rewrite (Hcell v Hv), Hbr, Hcomma.
    split; [done|]. split; [apply (split_join ","%char)|apply (split_no_sep ","%char)].
  - intros Hv Hbr Hcomma. by rewrite (Hcell v Hv), Hbr, Hcomma.
  - by rewrite Hcell.
Qed.

End CoercionClaims.

Section UploadClaims.
Context `{Host}.
Implicit Types (p : Props) (w : World) (f : File) (rows : list RawRecord)
  (ids : gset Ident).

(** C5 (as amended).  When a row of a students file fails a validation
    rule, the upload stops after the parse: it has read the file, fetched
    the stored identifiers (its one call to the backing store) and parsed,
    and it then sets the report and clears the uploading flag.  No
    bulk-insert call is made.  The report joins the messages of the first
    five errors and, when there are more, says how many more; with at most
    five errors it holds every message. *)
Theorem C5_validation_rejects_batch p f w (content : string)
    (existingData : option (list Ident)) rows ids :
  tableName p = "students" →
  text f = Returns content →
  fetchTableData w "students" = Returns existingData →
  ids = match existingData with Some data => list_to_set data | None => ∅ end →
  papaParse w content = Complete [] rows →
  validateStudentData rows ids ≠ [] →
  handleUpload p (Some f) w
  = [SetIsUploading true; SetError None; ReadFile; FetchTableData "students";
     PapaParse content;
     SetError (Some (validationReport (validateStudentData rows ids)));
     SetIsUploading false] ∧
  bulkInsertCalls (handleUpload p (Some f) w) = [] ∧
  filter (λ ev, isNetworkCall ev = true) (handleUpload p (Some f) w)
  = [FetchTableData "students"] ∧
  ((length (validateStudentData rows ids) ≤ 5)%nat →
   validationReport (validateStudentData rows ids)
   = "Validation errors found:" +:+ newline
     +:+ join newline (CsvUpload.message <$> validateStudentData rows ids)).
Proof.
  intros Htable Htext Hfetch Hset Hparse Herrors.
  assert (fetchedIds p w = Some ids) as Hids.
  { unfold fetchedIds. rewrite Htable. simpl. rewrite Hfetch, Hset. by destruct existingData. }
  rewrite (handleUpload_parsed p f w content ids [] rows Htext Hids Hparse).
  rewrite complete_invalid by done. rewrite Htable. simpl.
  split; [done|]. split; [done|]. split; [reflexivity|].
  intros Hlen. unfold validationReport.
  rewrite take_ge by done.
  destruct (Nat.ltb_spec 5 (length (validateStudentData rows ids))); [lia|].
  f_equal. f_equal. apply append_empty_r.
Qed.

(** C6.  Every record of every bulk-insert call carries a non-empty
    "created" timestamp.  A file that parses without error into at least
    one row and passes validation leads to exactly one bulk-insert call; it
    goes to the table of the upload and carries one coerced record per row,
    in file order; the record of a row without a "created" value holds the
    time read while the row was coerced. *)
Theorem C6_created_at_always_set p (file : option File) w :
  (∀ table records,
      (table, records) ∈ bulkInsertCalls (handleUpload p file w) →
      Forall hasCreatedAt records) ∧
  (∀ f content ids rows,
      file = Some f → text f = Returns content → fetchedIds p w = Some ids →
      papaParse w content = Complete [] rows → rows ≠ [] →
      (tableName p = "students" → validateStudentData rows ids = []) →
      ∃ records,
        bulkInsertCalls (handleUpload p file w) = [(tableName p, records)] ∧
        length records = length rows ∧
        Forall hasCreatedAt records ∧
        (∀ i row, rows !! i = Some row →
                  records !! i = Some (processRow (clock w i) row)) ∧
        (∀ i row, rows !! i = Some row → truthyCell (row !! "created_at") = false →
                  ∃ record, records !! i = Some record ∧
                            record !! "created_at" = Some (Str (toISOString (clock w i))))).
Proof.
  split.
  - intros table records Hin.
    destruct (bulkInsertCalls_handleUpload p file w) as [Hnone|[rows Hone]].
    + rewrite Hnone in Hin. by apply elem_of_nil in Hin.
    + rewrite Hone in Hin. apply list_elem_of_singleton in Hin as [= -> ->].
      apply Forall_hasCreatedAt_processed.
  - intros f content ids rows -> Htext Hids Hparse Hrows Hvalid.
    exists (imap (λ i row, processRow (clock w i) row) rows).
    rewrite (handleUpload_parsed p f w content ids [] rows Htext Hids Hparse).
    rewrite complete_valid by done.
    split; [|split; [|split; [|split]]].
    + destruct (String.eqb (tableName p) "students"); simpl; apply bulkInsertCalls_insertRows.
    + apply length_imap.
    + apply Forall_hasCreatedAt_processed.
    + intros i row Hrow. by rewrite list_lookup_imap, Hrow.
    + intros i row Hrow Hcell. exists (processRow (clock w i) row).
      split; [by rewrite list_lookup_imap, Hrow|by apply processRow_clock].
Qed.

(** C9 (as amended).  When the upload reaches the insert and the insert
    fails with a message, the error shown is the explanation that student
    IDs already exist when the message contains "duplicate key value", and
    the message itself otherwise; except that a failure thrown with an
    empty message is shown as "Error uploading data". *)
Theorem C9_insert_failure_classified p f w (content : string) ids rows :
  text f = Returns content → fetchedIds p w = Some ids →
  papaParse w content = Complete [] rows → rows ≠ [] →
  (tableName p = "students" → validateStudentData rows ids = []) →
  (∀ result,
      bulkInsert w (tableName p) (imap (λ i row, processRow (clock w i) row) rows)
      = Returns result → success result = false →
      reportedError (handleUpload p (Some f) w)
      = Some (if includes (Api.message result) "duplicate key value"
              then duplicateKeyExplanation else Api.message result)) ∧
  (∀ thrown,
      bulkInsert w (tableName p) (imap (λ i row, processRow (clock w i) row) rows)
      = Throws (Some thrown) → thrown ≠ "" →
      reportedError (handleUpload p (Some f) w)
      = Some (if includes thrown "duplicate key value"
              then duplicateKeyExplanation else thrown)) ∧
  (bulkInsert w (tableName p) (imap (λ i row, processRow (clock w i) row) rows)
   = Throws (Some "") →
   reportedError (handleUpload p (Some f) w) = Some "Error uploading data") ∧
  includes duplicateKeyExplanation "already exist" = true.
Proof.
  intros Htext Hids Hparse Hrows Hvalid.
  rewrite (handleUpload_parsed p f w content ids [] rows Htext Hids Hparse).
  rewrite complete_valid by done. unfold insertRows.
  split; [|split; [|split]].
  - intros result -> Hfail. rewrite Hfail. by do 2 apply reportedError_app.
  - intros thrown -> Hthrown.
    assert (messageOr (Some thrown) "Error uploading data" = thrown) as ->.
    { simpl. by destruct (String.eqb_spec thrown ""). }
    by do 2 apply reportedError_app.
  - intros ->. by do 2 apply reportedError_app.
  - reflexivity.
Qed.

End UploadClaims.

(** ** The claims on sample files *)

(** C1, as stated, fails: the same record, which has no [created_at] cell,
    coerced at two clock readings one second apart gives two different
    records. *)
Lemma C1_counterexample :
  asha !! "created_at" = None ∧
  @processRow ExampleHost.host 0 asha !! "created_at"
    = Some (Str "1970-01-01T00:00:00.000Z") ∧
  @processRow ExampleHost.host 1000 asha !! "created_at"
    = Some (Str "1970-01-01T00:00:01.000Z") ∧
  @processRow ExampleHost.host 0 asha ≠ @processRow ExampleHost.host 1000 asha.
Proof.
  split; [reflexivity|]. split; [by vm_compute|]. split; [by vm_compute|].
  intros Heq. apply (f_equal (λ record : CoercedRecord, record !! "created_at")) in Heq.
  vm_compute in Heq. discriminate.
Qed.

(** C1 on a sample row whose [created_at] cell is "2024-03-01". *)
Lemma C1_witness :
  ashaCreated !! "created_at" = Some "2024-03-01" ∧
  @processRow ExampleHost.host 0 ashaCreated = @processRow ExampleHost.host 1000 ashaCreated ∧
  @processRow ExampleHost.host 0 ashaCreated !! "created_at"
    = Some (Str "2024-03-01T00:00:00.000Z").
Proof.
  destruct (@C1_coercion_deterministic ExampleHost.host ashaCreated "2024-03-01" 0 1000 eq_refl)
    as [Hsame Hkeys]; [discriminate|].
  split; [reflexivity|]. split; [exact Hsame|]. rewrite Hkeys. by vm_compute.
Defined.

(** C2, as stated, fails for [student_id], which the coercion treats as
    numeric: "abc" is coerced to itself and the validator raises nothing. *)
Lemma C2_counterexample :
  hasKey coercedNumericKeys "student_id" = true ∧
  ashaTextualId !! "student_id" = Some "abc" ∧
  isNaN (Number "abc") = true ∧
  @coerceCell ExampleHost.host "student_id" "abc" = Str "abc" ∧
  validateStudentData [ashaTextualId] ∅ = [].
Proof. repeat split; by vm_compute. Qed.

(** C2 on a sample row whose [program_id] is "abc". *)
Lemma C2_witness :
  [ashaBadProgram] !! 0%nat = Some ashaBadProgram ∧
  ashaBadProgram !! "program_id" = Some "abc" ∧
  isNaN (Number "abc") = true ∧
  @coerceCell ExampleHost.host "program_id" "abc" = Str "abc" ∧
  numericError 0 "program_id" ∈ validateStudentData [ashaBadProgram] ∅.
Proof.
  assert ("program_id" ∈ coercedNumericKeys) as Hkey by in_list.
  assert ("program_id" ∈ numericFields) as Hfield by in_list.
  destruct (@C2_numeric_fallback ExampleHost.host [ashaBadProgram] ∅ 0 ashaBadProgram
              "program_id" "abc" Hkey eq_refl eq_refl eq_refl) as (Hcell & Herr & _).
  split; [reflexivity|]. split; [reflexivity|]. split; [reflexivity|].
  split; [exact Hcell|exact (Herr Hfield)].
Defined.

(** C5, as stated, fails: the three-row file is rejected with exactly two
    errors and no bulk-insert call, but after a call to the backing
    store, the fetch of the stored identifiers. *)
Lemma C5_counterexample :
  validateStudentData [asha; balaBlankLastName; chitraRepeatsAsha] ∅
    = [missingFieldError 1 "last_name"; duplicateError 2 "S-101"] ∧
  filter (λ ev, isNetworkCall ev = true)
    (@handleUpload ExampleHost.host students (Some csv)
       (world [asha; balaBlankLastName; chitraRepeatsAsha] [] inserted))
    = [FetchTableData "students"].
Proof. split; by vm_compute. Qed.

(** C5 on the three-row sample file: row 2 has a blank [last_name], row 3
    repeats row 1's identifier. *)
Lemma C5_witness :
  validateStudentData [asha; balaBlankLastName; chitraRepeatsAsha] ∅
    = [missingFieldError 1 "last_name"; duplicateError 2 "S-101"] ∧
  bulkInsertCalls
    (@handleUpload ExampleHost.host students (Some csv)
       (world [asha; balaBlankLastName; chitraRepeatsAsha] [] inserted)) = [] ∧
  reportedError
    (@handleUpload ExampleHost.host students (Some csv)
       (world [asha; balaBlankLastName; chitraRepeatsAsha] [] inserted))
    = Some ("Validation errors found:" +:+ newline
            +:+ CsvUpload.message (missingFieldError 1 "last_name") +:+ newline
            +:+ CsvUpload.message (duplicateError 2 "S-101")).
Proof.
  assert (validateStudentData [asha; balaBlankLastName; chitraRepeatsAsha] ∅
          = [missingFieldError 1 "last_name"; duplicateError 2 "S-101"]) as Herrors
    by (by vm_compute).
  destruct (@C5_validation_rejects_batch ExampleHost.host students csv
              (world [asha; balaBlankLastName; chitraRepeatsAsha] [] inserted)
              "first_name,last_name,student_email" (Some [])
              [asha; balaBlankLastName; chitraRepeatsAsha] ∅
              eq_refl eq_refl eq_refl eq_refl eq_refl)
    as (Htrace & Hnone & _ & _).
  { rewrite Herrors. discriminate. }
  split; [exact Herrors|]. split; [exact Hnone|].
  rewrite Htrace, Herrors. by vm_compute.
Defined.

(** C6 on a valid two-row sample file that has no [created_at] column. *)
Lemma C6_witness :
  asha !! "created_at" = None ∧ bala !! "created_at" = None ∧
  validateStudentData [asha; bala] ∅ = [] ∧
  ∃ records,
    bulkInsertCalls (@handleUpload ExampleHost.host students (Some csv)
                       (world [asha; bala] [] inserted))
    = [("students", records)] ∧
    length records = 2%nat ∧
    Forall hasCreatedAt records ∧
    (∃ first, records !! 0%nat = Some first ∧
              first !! "created_at" = Some (Str "2024-02-29T12:34:56.789Z")) ∧
    (∃ second, records !! 1%nat = Some second ∧
               second !! "created_at" = Some (Str "2024-02-29T12:34:56.790Z")).
Proof.
  destruct (@C6_created_at_always_set ExampleHost.host students (Some csv)
              (world [asha; bala] [] inserted)) as [_ Hvalid].
  assert (validateStudentData [asha; bala] ∅ = []) as Hnone by (vm_compute; reflexivity).
  destruct (Hvalid csv "first_name,last_name,student_email" ∅ [asha; bala]
              eq_refl eq_refl eq_refl eq_refl) as (records & Hcalls & Hlen & Hall & Hrecords & _);
    [discriminate|intros _; exact Hnone|].
  split; [reflexivity|]. split; [reflexivity|]. split; [exact Hnone|].
  exists records. 
  split; [exact Hcalls|]. split; [exact Hlen|]. split; [exact Hall|]. split.
  - exists (@processRow ExampleHost.host (clock (world [asha; bala] [] inserted) 0) asha).
    split; [exact (Hrecords 0%nat asha eq_refl)|]. vm_compute. reflexivity.
  - exists (@processRow ExampleHost.host (clock (world [asha; bala] [] inserted) 1) bala).
    split; [exact (Hrecords 1%nat bala eq_refl)|]. vm_compute. reflexivity.
Defined.

(** C7 on sample cells. *)
Lemma C7_witness :
  @coerceCell ExampleHost.host "days_of_week" "Monday, Wednesday"
    = Arr [Str "Monday"; Str "Wednesday"] ∧
  @coerceCell ExampleHost.host "days_of_week" "" = Null ∧
  @coerceCell ExampleHost.host "timings" ("[" +:+ quote +:+ "9am" +:+ quote +:+ "]")
    = Arr [Str "9am"] ∧
  @coerceCell ExampleHost.host "timings" "[9am]" = Arr [Str "[9am]"] ∧
  @coerceCell ExampleHost.host "timings" "Friday" = Arr [Str "Friday"].
Proof.
  assert ("days_of_week" ∈ arrayKeys) as Hdays by in_list.
  assert ("timings" ∈ arrayKeys) as Htimings by in_list.
  destruct (@C7_array_coercion ExampleHost.host "days_of_week" "Monday, Wednesday" Hdays)
    as (Hempty & _ & _ & Hsplit & _ & Hexample).
  destruct (@C7_array_coercion ExampleHost.host "timings"
              ("[" +:+ quote +:+ "9am" +:+ quote +:+ "]") Htimings)
    as (_ & _ & Hparsed & _).
  destruct (@C7_array_coercion ExampleHost.host "timings" "[9am]" Htimings)
    as (_ & _ & Hthrown & _).
  destruct (@C7_array_coercion ExampleHost.host "timings" "Friday" Htimings)
    as (_ & _ & _ & _ & Hsingle & _).
  split; [exact Hexample|]. split; [exact Hempty|]. split; [|split].
  - destruct Hparsed as [Hok _]; [discriminate|reflexivity|].
    by destruct (Hok (Arr [Str "9am"]) eq_refl) as [-> _].
  - destruct Hthrown as [_ Hfail]; [discriminate|reflexivity|]. exact (Hfail eq_refl).
  - apply Hsingle; [discriminate|reflexivity..].
Defined.

(** C9, as stated, fails: a failure thrown with an empty message is not
    shown by that message but as "Error uploading data". *)
Lemma C9_counterexample :
  validateStudentData [asha; bala] ∅ = [] ∧
  reportedError (@handleUpload ExampleHost.host students (Some csv)
                   (world [asha; bala] [] (Throws (Some ""))))
  = Some "Error uploading data".
Proof. split; by vm_compute. Qed.

(** C9 on two sample failures: a uniqueness violation returned by the
    store, and a thrown connectivity failure. *)
Lemma C9_witness :
  reportedError
    (@handleUpload ExampleHost.host students (Some csv)
       (world [asha; bala] []
          (Returns {| success := false;
                      Api.message := "duplicate key value violates unique constraint" |})))
  = Some duplicateKeyExplanation ∧
  reportedError
    (@handleUpload ExampleHost.host students (Some csv)
       (world [asha; bala] [] (Throws (Some "Failed to fetch"))))
  = Some "Failed to fetch".
Proof.
  split.
  - destruct (@C9_insert_failure_classified ExampleHost.host students csv
                (world [asha; bala] []
                   (Returns {| success := false;
                               Api.message := "duplicate key value violates unique constraint" |}))
                "first_name,last_name,student_email" ∅ [asha; bala]
                eq_refl eq_refl eq_refl) as (Hresult & _); [discriminate|by vm_compute|].
    by rewrite (Hresult _ eq_refl eq_refl).
  - destruct (@C9_insert_failure_classified ExampleHost.host students csv
                (world [asha; bala] [] (Throws (Some "Failed to fetch")))
                "first_name,last_name,student_email" ∅ [asha; bala]
                eq_refl eq_refl eq_refl) as (_ & Hthrown & _); [discriminate|by vm_compute|].
    rewrite (Hthrown "Failed to fetch" eq_refl); [reflexivity|discriminate].
Defined.

(** * Further properties of the component *)

(** ** The validator *)

Lemma append_assoc (s t u : string) : (s +:+ t) +:+ u = s +:+ (t +:+ u).
Proof.
  induction s as [|c s IH]; [done|].
  change (String c ((s +:+ t) +:+ u) = String c (s +:+ t +:+ u)). by rewrite IH.
Qed.

Section ValidatorOrder.
Implicit Types (row : RawRecord) (rows more : list RawRecord)
  (existingIds : gset Ident) (e : ValidationError).

Lemma join_imap_cons {A B} (f : nat → A → list B) x l :
  mjoin (imap f (x :: l)) = f 0%nat x ++ mjoin (imap (f ∘ S) l).
Proof. reflexivity. Qed.

(** In a concatenation of per-item lists whose elements carry the number
    of their item, the numbers lie in the range of the items. *)
Lemma join_imap_key_range {A B} (key : B → nat) (l : list A) :
  ∀ (f : nat → A → list B) base,
    (∀ i x b, b ∈ f i x → key b = (base + i)%nat) →
    ∀ b, b ∈ mjoin (imap f l) → (base ≤ key b < base + length l)%nat.
Proof.
  induction l as [|x l IH]; intros f base Hkey b Hb.
  - by apply elem_of_nil in Hb.
  - rewrite join_imap_cons in Hb. apply elem_of_app in Hb as [Hb|Hb].
    + apply Hkey in Hb. simpl. lia.
    + apply (IH (f ∘ S) (S base)) in Hb; [simpl; lia|].
      intros i y b' Hb'. apply Hkey in Hb'. lia.
Qed.

(** ... and never decrease along the list. *)
Lemma join_imap_key_ordered {A B} (key : B → nat) (l : list A) :
  ∀ (f : nat → A → list B) base,
    (∀ i x b, b ∈ f i x → key b = (base + i)%nat) →
    ∀ i j b1 b2,
      mjoin (imap f l) !! i = Some b1 → mjoin (imap f l) !! j = Some b2 →
      (i ≤ j)%nat → (key b1 ≤ key b2)%nat.
Proof.
  induction l as [|x l IH]; intros f base Hkey i j b1 b2 H1 H2 Hij.
  - done.
  - rewrite join_imap_cons in H1, H2.
    assert (∀ i y b, b ∈ (f ∘ S) i y → key b = (S base + i)%nat) as Hkey'.
    { intros k y b Hb. apply Hkey in Hb. lia. }
    apply lookup_app_Some in H1 as [H1|[Hlen1 H1]];
      apply lookup_app_Some in H2 as [H2|[Hlen2 H2]].
    + apply list_elem_of_lookup_2, Hkey in H1, H2. lia.
    + apply list_elem_of_lookup_2, Hkey in H1.
      apply list_elem_of_lookup_2, (join_imap_key_range key l _ _ Hkey') in H2. lia.
    + apply lookup_lt_Some in H2. lia.
    + apply (IH _ _ Hkey' _ _ _ _ H1 H2). lia.
Qed.

Lemma rowErrors_row earlier existingIds index row e :
  e ∈ rowErrors earlier existingIds index row → CsvUpload.row e = (1 + index)%nat.
Proof.
  unfold rowErrors. intros (rule & -> & _)%list_elem_of_fmap.
  unfold ruleError. rewrite errorOf_row. lia.
Qed.

(** X1.  The errors come in file order: their row numbers lie between 1 and
    the number of rows and never decrease along the list, and the text of
    every error starts with the label of its own row. *)
Theorem validateStudentData_rows_ordered rows existingIds :
  (∀ e, e ∈ validateStudentData rows existingIds →
        (1 ≤ CsvUpload.row e ≤ length rows)%nat ∧
        ∃ text, CsvUpload.message e
                = "Row " +:+ pretty (CsvUpload.row e) +:+ ": " +:+ text) ∧
  (∀ i j e1 e2,
      validateStudentData rows existingIds !! i = Some e1 →
      validateStudentData rows existingIds !! j = Some e2 →
      (i ≤ j)%nat → (CsvUpload.row e1 ≤ CsvUpload.row e2)%nat).
Proof.
  rewrite validateStudentData_fileErrors. unfold fileErrors.
  set (f := λ index row, rowErrors (take index rows) existingIds index row).
  assert (∀ i x b, b ∈ f i x → CsvUpload.row b = (1 + i)%nat) as Hkey.
  { intros i x b. apply rowErrors_row. }
  split.
  - intros e He. split.
    + apply (join_imap_key_range CsvUpload.row rows f 1 Hkey) in He. lia.
    + apply list_elem_of_join in He as (l & He & Hl).
      apply elem_of_lookup_imap in Hl as (i & row & -> & _).
      unfold f, rowErrors in He. apply list_elem_of_fmap in He as (rule & -> & _).
      unfold ruleError. rewrite errorOf_message, errorOf_row.
      unfold rowLabel. eexists. rewrite !append_assoc. reflexivity.
  - apply (join_imap_key_ordered CsvUpload.row rows f 1 Hkey).
Qed.

(** X2.  Validation is a single pass: the errors of the first rows of a
    file are the first errors of the whole file, whatever rows follow, and
    the errors after them belong to the later rows. *)
Theorem validateStudentData_prefix rows more existingIds :
  ∃ later,
    validateStudentData (rows ++ more) existingIds
    = validateStudentData rows existingIds ++ later ∧
    ∀ e, e ∈ later → (length rows < CsvUpload.row e ≤ length rows + length more)%nat.
Proof.
  rewrite !validateStudentData_fileErrors. unfold fileErrors.
  rewrite imap_app, join_app.
  eexists. split.
  - f_equal. f_equal. apply imap_ext. intros i row Hrow. simpl.
    apply lookup_lt_Some in Hrow. by rewrite take_app_le by lia.
  - intros e He.
    apply (join_imap_key_range CsvUpload.row more _ (1 + length rows)) in He; [lia|].
    intros i x b Hb. apply rowErrors_row in Hb. lia.
Qed.

End ValidatorOrder.

Section ValidatorIdentifiers.
Implicit Types (row : RawRecord) (rows : list RawRecord)
  (existingIds : gset Ident) (e : ValidationError) (id : string).

Lemma length_append (s t : string) :
  String.length (s +:+ t) = (String.length s + String.length t)%nat.
Proof. induction s as [|c s IH]; [done|]. simpl. by rewrite <- IH. Qed.

Lemma append_cancel_r (t : string) : ∀ s s', s +:+ t = s' +:+ t → s = s'.
Proof.
  induction s as [|c s IH]; intros [|c' s'] Heq; [done| | |].
  - apply (f_equal String.length) in Heq. rewrite !length_append in Heq.
    simpl in Heq. lia.
  - apply (f_equal String.length) in Heq. rewrite !length_append in Heq.
    simpl in Heq. lia.
  - injection Heq as -> Heq. f_equal. by apply IH.
Qed.

(** The duplicate error names its row and quotes its identifier. *)
Lemma duplicateError_inj i j id id' :
  duplicateError i id = duplicateError j id' → i = j ∧ id = id'.
Proof.
  intros Heq.
  assert (i = j) as <-.
  { apply (f_equal CsvUpload.row) in Heq. simpl in Heq. lia. }
  split; [done|]. apply (f_equal CsvUpload.message) in Heq. simpl in Heq.
  apply (inj (String.app (rowLabel i))) in Heq.
  apply (inj (String.app "Duplicate student_id ")) in Heq.
  apply (inj (String.app quote)) in Heq.
  by apply append_cancel_r in Heq.
Qed.

Lemma existsError_inj i j id id' :
  existsError i id = existsError j id' → i = j ∧ id = id'.
Proof.
  intros Heq.
  assert (i = j) as <-.
  { apply (f_equal CsvUpload.row) in Heq. simpl in Heq. lia. }
  split; [done|]. apply (f_equal CsvUpload.message) in Heq. simpl in Heq.
  apply (inj (String.app (rowLabel i))) in Heq.
  apply (inj (String.app "student_id ")) in Heq.
  apply (inj (String.app quote)) in Heq.
  by apply append_cancel_r in Heq.
Qed.

Lemma elem_of_identifiers_take rows index id :
  Some id ∈ identifier <$> take index rows ↔
  ∃ j row', (j < index)%nat ∧ rows !! j = Some row' ∧ identifier row' = Some id.
Proof.
  rewrite list_elem_of_fmap. split.
  - intros (row' & Hid & (j & Hj)%list_elem_of_lookup).
    apply lookup_take_Some in Hj as [Hj Hlt]. by exists j, row'.
  - intros (j & row' & Hlt & Hj & Hid). exists row'. split; [done|].
    apply list_elem_of_lookup. exists j. by apply lookup_take_Some.
Qed.

(** The row a duplicate error is raised on repeats an earlier row. *)
Lemma elem_of_duplicateError rows existingIds index id :
  duplicateError index id ∈ validateStudentData rows existingIds →
  ∃ row, rows !! index = Some row ∧ identifier row = Some id ∧
    ∃ j row', (j < index)%nat ∧ rows !! j = Some row' ∧ identifier row' = Some id.
Proof.
  intros (i & row & rule & Hrow & Hrule & Hv & Heq)%elem_of_validateStudentData.
  change (duplicateError index id) with (errorOf index id IntraFileDuplicate) in Heq.
  unfold ruleError in Heq.
  pose proof (errorOf_index_inj _ _ _ _ _ _ Heq) as ->.
  pose proof Heq as Hr.
  apply errorOf_rule_inj in Hr as <-; [|in_list|by apply rules_subseteq].
  apply duplicateError_inj in Heq as [_ ->]. simpl in Hv.
  destruct (identifier row) as [id'|] eqn:Hid; [|done]. simpl.
  apply bool_decide_eq_true_1 in Hv. exists row. split; [done|]. split; [done|].
  by apply elem_of_identifiers_take.
Qed.

(** X3.  The duplicate error quoting [id] is raised on a row exactly when
    the row carries the identifier [id] and an earlier row of the file
    carries it too; the stored identifiers play no part. *)
Theorem duplicateError_iff_repeat rows existingIds index id :
  duplicateError index id ∈ validateStudentData rows existingIds ↔
  ∃ row, rows !! index = Some row ∧ identifier row = Some id ∧
    ∃ j row', (j < index)%nat ∧ rows !! j = Some row' ∧ identifier row' = Some id.
Proof.
  split; [apply elem_of_duplicateError|].
  intros (row & Hrow & Hid & Hearlier).
  change (duplicateError index id) with (errorOf index id IntraFileDuplicate).
  replace id with (default "" (identifier row)) at 1 by (by rewrite Hid).
  apply (ruleError_elem_of _ _ index row IntraFileDuplicate); [done|in_list|].
  simpl. rewrite Hid. apply bool_decide_eq_true_2. by apply elem_of_identifiers_take.
Qed.

Lemma violates_existing_mono earlier existingIds existingIds' row rule :
  existingIds ⊆ existingIds' →
  violates earlier existingIds row rule = true →
  violates earlier existingIds' row rule = true.
Proof.
  intros Hsub. destruct rule; simpl; try done.
  destruct (identifier row); [|done].
  intros Hin%bool_decide_eq_true_1. apply bool_decide_eq_true_2. by apply Hsub.
Qed.

(** X4.  The stored identifiers only ever add "already exists" errors: with
    more identifiers stored every error is still raised, and an error that
    is new is the "already exists" error of a row whose identifier is one
    of the added ones. *)
Theorem validateStudentData_existing_mono rows existingIds existingIds' :
  existingIds ⊆ existingIds' →
  (∀ e, e ∈ validateStudentData rows existingIds →
        e ∈ validateStudentData rows existingIds') ∧
  (∀ e, e ∈ validateStudentData rows existingIds' →
        e ∈ validateStudentData rows existingIds ∨
        ∃ index id, e = existsError index id ∧
                    IdStr id ∈ existingIds' ∧ IdStr id ∉ existingIds).
Proof.
  intros Hsub. split.
  - intros e (i & row & rule & Hrow & Hrule & Hv & ->)%elem_of_validateStudentData.
    apply ruleError_elem_of; [done..|]. by apply (violates_existing_mono _ existingIds).
  - intros e (i & row & rule & Hrow & Hrule & Hv & ->)%elem_of_validateStudentData.
    destruct (violates (take i rows) existingIds row rule) eqn:Hv0.
    { left. by apply ruleError_elem_of. }
    right. destruct rule; simpl in Hv, Hv0; try congruence.
    destruct (identifier row) as [id|] eqn:Hid; [|done].
    exists i, id. unfold ruleError. rewrite Hid. simpl.
    apply bool_decide_eq_true_1 in Hv. apply bool_decide_eq_false_1 in Hv0. done.
Qed.

Lemma list_ascii_of_string_append (s t : string) :
  String.list_ascii_of_string (s +:+ t)
  = String.list_ascii_of_string s ++ String.list_ascii_of_string t.
Proof. induction s as [|c s IH]; [done|]. simpl. by rewrite <- IH. Qed.

Lemma trim_empty_blank (v : string) : trim v = "" → isBlankText v.
Proof.
  intros Htrim. destruct (trim_spec v) as [(l & r & Hv & Hl & Hr) _].
  rewrite Htrim in Hv. rewrite Hv. intros c.
  rewrite !list_ascii_of_string_append. simpl.
  intros [?|?]%elem_of_app; auto.
Qed.

(** A text of white space has not the shape of an email address. *)
Lemma blank_not_email (v : string) : isBlankText v → ¬ hasEmailShape v.
Proof.
  intros Hblank (loc & domain & tld & -> & _).
  assert (isWhiteSpace "@" = true) as Hat; [|done].
  apply Hblank. rewrite !list_ascii_of_string_append. simpl.
  apply elem_of_app. right. apply elem_of_cons. by left.
Qed.

(** X5.  A [student_email] cell of white space only raises two errors on
    its row, the missing required field and the invalid format; such a
    [parents_email] raises the invalid format. *)
Theorem blank_email_two_errors rows existingIds index row (v : string) :
  rows !! index = Some row → v ≠ "" → trim v = "" →
  (row !! "student_email" = Some v →
     missingFieldError index "student_email" ∈ validateStudentData rows existingIds ∧
     emailFormatError index "student_email" ∈ validateStudentData rows existingIds) ∧
  (row !! "parents_email" = Some v →
     emailFormatError index "parents_email" ∈ validateStudentData rows existingIds).
Proof.
  intros Hrow Hv Htrim.
  assert (test emailPattern v = false) as Htest.
  { apply not_true_is_false. rewrite test_emailPattern.
    by apply blank_not_email, trim_empty_blank. }
  assert (∀ column, column ∈ ["student_email"; "parents_email"] →
            row !! column = Some v →
            emailFormatError index column ∈ validateStudentData rows existingIds) as Hformat.
  { intros column Hcol Hcell.
    apply (ruleError_elem_of _ _ index row (EmailFormat column)); [done| |].
    - repeat (apply elem_of_cons in Hcol as [->|Hcol]); [in_list..|by apply elem_of_nil in Hcol].
    - simpl. rewrite Hcell, Htest. by destruct (String.eqb_spec v ""). }
  split.
  - intros Hcell. split; [|apply Hformat; [in_list|done]].
    apply (ruleError_elem_of _ _ index row (RequiredField "student_email")); [done|in_list|].
    simpl. rewrite Hcell. simpl. by rewrite Htrim.
  - apply Hformat. in_list.
Qed.

End ValidatorIdentifiers.

(** X3 on a sample file: the third row repeats the first row's identifier. *)
Lemma duplicateError_iff_repeat_sample :
  duplicateError 2 "S-101" ∈ validateStudentData [asha; bala; chitraRepeatsAsha] ∅ ∧
  duplicateError 0 "S-101" ∉ validateStudentData [asha; bala; chitraRepeatsAsha] ∅.
Proof.
  split.
  - apply duplicateError_iff_repeat. exists chitraRepeatsAsha.
    split; [reflexivity|]. split; [reflexivity|].
    exists 0%nat, asha. split; [lia|]. split; reflexivity.
  - intros (row & _ & _ & j & _ & Hlt & _)%duplicateError_iff_repeat. lia.
Defined.

(** ** Coercion *)

Section CoercionExtras.
Context `{Host}.
Implicit Types (row : RawRecord) (rows : list RawRecord) (existingIds : gset Ident)
  (key field v : string) (now : Z).

(** X6.  A cell of white space only in a column the coercion treats as
    numeric is coerced to the number zero, not to the absent marker, and
    the validator raises no type error for it. *)
Theorem blank_numeric_cell_is_zero rows existingIds index row key v :
  key ∈ coercedNumericKeys →
  rows !! index = Some row → row !! key = Some v → v ≠ "" → trim v = "" →
  coerceCell key v = Num (Decimal false 0 0) ∧
  (numericError index key ∉ validateStudentData rows existingIds).
Proof.
  intros Hkey Hrow Hcell Hv Htrim. split.
  - unfold coerceCell. destruct (String.eqb_spec v "") as [|_]; [done|].
    apply hasKey_elem_of in Hkey. by rewrite Hkey, (Number_blank v Htrim).
  - intros Hin.
    apply (errorOf_elem_of _ _ index row "" (NumericShape key)) in Hin as [_ Hviol];
      [|done|].
    + simpl in Hviol. rewrite Hcell, Htrim in Hviol. done.
    + apply elem_of_app. right. by apply list_elem_of_fmap_2.
Qed.

(** X7.  The coerced record has the keys of the row and [created_at], no
    other. *)
Theorem processRow_keys now row :
  dom (processRow now row) = dom row ∪ {["created_at"]}.
Proof.
  apply set_eq. intros key.
  rewrite elem_of_union, elem_of_singleton, !elem_of_dom.
  destruct (decide (key = "created_at")) as [->|Hkey].
  - split; [by right|]. intros _.
    destruct (processRow_created_at now row) as (stamp & -> & _). by eexists.
  - rewrite processRow_other by done. rewrite fmap_is_Some. split; [by left|].
    by intros [?|?].
Qed.

(** X8.  A column that is neither numeric, array-valued nor a date is not
    touched: an empty cell becomes the absent marker and any other cell
    keeps its text, white space included. *)
Theorem processRow_passthrough now row key v :
  key ∉ coercedNumericKeys ++ arrayKeys ++ ["dob"; "created_at"] →
  row !! key = Some v →
  processRow now row !! key = Some (if String.eqb v "" then Null else Str v).
Proof.
  intros Hkey Hcell.
  assert (key ≠ "created_at") as Hcreated.
  { intros ->. apply Hkey. in_list. }
  rewrite processRow_other, Hcell by done. simpl. f_equal.
  unfold coerceCell. destruct (String.eqb v ""); [done|].
  assert (hasKey coercedNumericKeys key = false) as ->.
  { apply not_true_is_false. rewrite hasKey_elem_of. intros Hin. apply Hkey.
    apply elem_of_app. by left. }
  assert (hasKey arrayKeys key = false) as ->.
  { apply not_true_is_false. rewrite hasKey_elem_of. intros Hin. apply Hkey.
    apply elem_of_app. right. apply elem_of_app. by left. }
  destruct (String.eqb_spec key "dob") as [->|_].
  { exfalso. apply Hkey. in_list. }
  by destruct (String.eqb_spec key "created_at").
Qed.

(** The rounding on sample literals: two spellings of one number, the
    largest finite value and the overflow past it, the first integer that
    is not a Number value, a tie below the smallest positive value, and the
    two zeros. *)
Lemma ofNumber_samples :
  Binary64.ofNumber (Number "7.0") = Binary64.ofNumber (Number "7") ∧
  Binary64.ofNumber (Number "1e3") = Binary64.ofNumber (Number "1000") ∧
  Binary64.ofNumber (Number "0.1") = Binary64.Finite false 7205759403792794 (-56) ∧
  Binary64.ofNumber (Number "1.7976931348623157e308")
  = Binary64.Finite false 9007199254740991 971 ∧
  Binary64.ofNumber (Number "1.7976931348623159e308") = Binary64.Infinite false ∧
  Binary64.ofNumber (Number "1e400") = Binary64.Infinite false ∧
  Binary64.ofNumber (Number "9007199254740993")
  = Binary64.Finite false 4503599627370496 1 ∧
  Binary64.ofNumber (Number "5e-324") = Binary64.Finite false 1 (-1074) ∧
  Binary64.ofNumber (Number "2.4703282292062327e-324")
  = Binary64.Finite false 0 (-1074) ∧
  Binary64.strictEquals (Binary64.ofNumber (Number "-0"))
                        (Binary64.ofNumber (Number "0")) = true ∧
  Binary64.strictEquals (Binary64.ofNumber (Number "abc"))
                        (Binary64.ofNumber (Number "abc")) = false.
Proof. repeat split; vm_compute; reflexivity. Qed.



End CoercionExtras.

(** ** The upload *)

Section UploadExtras.
Context `{Host}.
Implicit Types (p : Props) (w : World) (f : File) (row : RawRecord)
  (rows : list RawRecord) (ids : gset Ident) (trace : list Event).

Lemma bulkInsertCalls_complete_inv p w ids parseErrors rows table records :
  (table, records) ∈ bulkInsertCalls (complete p w ids parseErrors rows) →
  parseErrors = [] ∧ rows ≠ [] ∧
  (tableName p = "students" → validateStudentData rows ids = []) ∧
  table = tableName p ∧
  records = imap (λ i row, processRow (clock w i) row) rows.
Proof.
  unfold complete. destruct parseErrors as [|first others].
  2:{ intros Hin. by apply elem_of_nil in Hin. }
  destruct rows as [|row rows].
  { intros Hin. by apply elem_of_nil in Hin. }
  destruct (String.eqb_spec (tableName p) "students") as [Hs|Hs]; cbn [andb].
  - destruct (validateStudentData (row :: rows) ids) as [|e errs] eqn:Hval;
      cbn [length Nat.ltb Nat.leb].
    + rewrite bulkInsertCalls_insertRows. intros [= -> ->]%list_elem_of_singleton. done.
    + intros Hin. by apply elem_of_nil in Hin.
  - rewrite bulkInsertCalls_insertRows. intros [= -> ->]%list_elem_of_singleton. done.
Qed.

Lemma bulkInsertCalls_parseAndImport_inv p w content ids table records :
  (table, records) ∈ bulkInsertCalls (parseAndImport p w content ids) →
  ∃ rows, papaParse w content = Complete [] rows ∧ rows ≠ [] ∧
    (tableName p = "students" → validateStudentData rows ids = []) ∧
    table = tableName p ∧
    records = imap (λ i row, processRow (clock w i) row) rows.
Proof.
  unfold parseAndImport.
  destruct (papaParse w content) as [parseErrors rows|msg]; simpl.
  - intros (-> & ?)%bulkInsertCalls_complete_inv. by exists rows.
  - intros Hin. by apply elem_of_nil in Hin.
Qed.

(** A bulk-insert call is made only for a file that was read, parsed
    without an error into at least one row and, for the students table,
    validated against the fetched identifiers without an error. *)
Lemma bulkInsertCalls_handleUpload_inv p file w table records :
  (table, records) ∈ bulkInsertCalls (handleUpload p file w) →
  ∃ f content ids rows,
    file = Some f ∧ text f = Returns content ∧ fetchedIds p w = Some ids ∧
    papaParse w content = Complete [] rows ∧ rows ≠ [] ∧
    (tableName p = "students" → validateStudentData rows ids = []) ∧
    table = tableName p ∧
    records = imap (λ i row, processRow (clock w i) row) rows.
Proof.
  unfold handleUpload, fetchedIds. destruct file as [f|].
  2:{ intros Hin. by apply elem_of_nil in Hin. }
  destruct (text f) as [content|err|] eqn:Htext.
  2,3: intros Hin; by apply elem_of_nil in Hin.
  simpl. destruct (String.eqb (tableName p) "students"); simpl.
  - destruct (fetchTableData w (tableName p)) as [[existingData|]|err|]; simpl.
    + intros (rows & ?)%bulkInsertCalls_parseAndImport_inv.
      by exists f, content, (list_to_set existingData), rows.
    + intros (rows & ?)%bulkInsertCalls_parseAndImport_inv.
      by exists f, content, ∅, rows.
    + intros Hin. by apply elem_of_nil in Hin.
    + intros Hin. by apply elem_of_nil in Hin.
  - intros (rows & ?)%bulkInsertCalls_parseAndImport_inv.
    by exists f, content, ∅, rows.
Qed.

Lemma bulkInsertCalls_app trace1 trace2 :
  bulkInsertCalls (trace1 ++ trace2) = bulkInsertCalls trace1 ++ bulkInsertCalls trace2.
Proof. apply omap_app. Qed.

(** A readable file that parses cleanly and passes validation is inserted
    in one call. *)
Lemma bulkInsertCalls_handleUpload_valid p f w content ids rows :
  text f = Returns content → fetchedIds p w = Some ids →
  papaParse w content = Complete [] rows → rows ≠ [] →
  (tableName p = "students" → validateStudentData rows ids = []) →
  bulkInsertCalls (handleUpload p (Some f) w)
  = [(tableName p, imap (λ i row, processRow (clock w i) row) rows)].
Proof.
  intros Htext Hids Hparse Hrows Hvalid.
  rewrite (handleUpload_parsed p f w content ids [] rows) by done.
  rewrite (complete_valid p w ids rows) by done.
  rewrite !bulkInsertCalls_app.
  change (bulkInsertCalls (PapaParse content :: insertRows p w rows))
    with (bulkInsertCalls (insertRows p w rows)).
  rewrite bulkInsertCalls_insertRows. by destruct (String.eqb _ _).
Qed.

(** X10.  The rows are inserted exactly when the file could be read, the
    parser reported no error and produced a row and, for the students
    table, the stored identifiers could be fetched and validation found no
    error. *)
Theorem bulkInsert_iff p file w :
  bulkInsertCalls (handleUpload p file w) ≠ [] ↔
  ∃ f content ids rows,
    file = Some f ∧ text f = Returns content ∧ fetchedIds p w = Some ids ∧
    papaParse w content = Complete [] rows ∧ rows ≠ [] ∧
    (tableName p = "students" → validateStudentData rows ids = []).
Proof.
  split.
  - destruct (bulkInsertCalls (handleUpload p file w)) as [|[table records] calls] eqn:Hcalls;
      [done|]. intros _.
    destruct (bulkInsertCalls_handleUpload_inv p file w table records)
      as (f & content & ids & rows & ? & ? & ? & ? & ? & ? & _).
    { rewrite Hcalls. apply elem_of_cons. by left. }
    by exists f, content, ids, rows.
  - intros (f & content & ids & rows & -> & Htext & Hids & Hparse & Hrows & Hvalid).
    by rewrite (bulkInsertCalls_handleUpload_valid p f w content ids rows).
Qed.

(** A row of a file that passes validation violates no rule. *)
Lemma valid_row_violates rows ids index row rule :
  validateStudentData rows ids = [] → rows !! index = Some row → rule ∈ rules →
  violates (take index rows) ids row rule = false.
Proof.
  intros Hvalid Hrow Hrule. apply not_true_is_false. intros Hv.
  pose proof (ruleError_elem_of rows ids index row rule Hrow Hrule Hv) as Hin.
  rewrite Hvalid in Hin. by apply elem_of_nil in Hin.
Qed.

(** X11.  What reaches the students table has passed validation: in every
    inserted record the five required fields hold a value, the numeric
    fields the validator checks hold a number when they hold anything, and
    [student_email] holds a text of the shape of an email address. *)
Theorem inserted_students_well_formed p file w table records record :
  tableName p = "students" →
  (table, records) ∈ bulkInsertCalls (handleUpload p file w) →
  record ∈ records →
  (∀ field, field ∈ requiredFields →
     ∃ v, record !! field = Some v ∧ v ≠ Null) ∧
  (∀ field, field ∈ numericFields →
     record !! field = None ∨ record !! field = Some Null ∨
     ∃ n, record !! field = Some (Num n) ∧ isNaN n = false) ∧
  (∃ address, record !! "student_email" = Some (Str address) ∧ hasEmailShape address).
Proof.
  intros Hs (f & content & ids & rows & _ & _ & _ & _ & _ & Hvalid & _ & ->)%bulkInsertCalls_handleUpload_inv
    (index & row & -> & Hrow)%elem_of_lookup_imap.
  specialize (Hvalid Hs).
  assert (∀ rule, rule ∈ rules → violates (take index rows) ids row rule = false) as Hok.
  { intros rule. by apply valid_row_violates. }
  assert (∀ field, field ∈ numericFields → field ∈ coercedNumericKeys) as Hnumeric.
  { intros field Hfield. rule_cases Hfield; in_list. }
  assert (∀ field v, field ∈ numericFields → row !! field = Some v → v ≠ "" →
            isNaN (Number v) = false ∧ coerceCell field v = Num (Number v)) as Hnum.
  { intros field v Hfield Hcell Hv.
    assert (isNaN (Number v) = false) as Hn.
    { specialize (Hok (NumericShape field)). simpl in Hok. rewrite Hcell in Hok.
      destruct (String.eqb_spec (trim v) "") as [Hb|Hb].
      - by rewrite (Number_blank v Hb).
      - apply Hok. apply elem_of_app. right. apply elem_of_app. right.
        by apply list_elem_of_fmap_2. }
    split; [done|]. unfold coerceCell.
    destruct (String.eqb_spec v "") as [|_]; [done|].
    apply Hnumeric, hasKey_elem_of in Hfield. by rewrite Hfield, Hn. }
  assert (∃ address, row !! "student_email" = Some address ∧ address ≠ ""
                     ∧ hasEmailShape address) as (address & Haddress & Hne & Hshape).
  { pose proof (Hok (RequiredField "student_email")) as Hreq. simpl in Hreq.
    destruct (row !! "student_email") as [v|] eqn:Hcell.
    2:{ discriminate Hreq. in_list. }
    assert (v ≠ "") as Hv.
    { intros ->. discriminate Hreq. in_list. }
    exists v. split; [done|]. split; [done|].
    apply test_emailPattern. specialize (Hok (EmailFormat "student_email")).
    simpl in Hok. rewrite Hcell in Hok.
    destruct (String.eqb_spec v "") as [|_]; [done|]. simpl in Hok.
    apply negb_false_iff. apply Hok. in_list. }
  split; [|split].
  - intros field Hfield.
    pose proof (Hok (RequiredField field)) as Hreq. simpl in Hreq.
    destruct (row !! field) as [v|] eqn:Hcell.
    2:{ discriminate Hreq. apply elem_of_app. left. by apply list_elem_of_fmap_2. }
    assert (v ≠ "") as Hv.
    { intros ->. discriminate Hreq. apply elem_of_app. left. by apply list_elem_of_fmap_2. }
    assert (field ≠ "created_at") as Hcreated.
    { intros ->. rule_cases Hfield. }
    rewrite processRow_other, Hcell by done. simpl.
    exists (coerceCell field v). split; [done|].
    assert (hasKey arrayKeys field = false) as Harr.
    { clear -Hfield. rule_cases Hfield; reflexivity. }
    unfold coerceCell. destruct (String.eqb_spec v "") as [|_]; [done|].
    destruct (_ && _); [done|]. rewrite Harr.
    destruct (_ || _); [|done]. by destruct (Date_parse v).
  - intros field Hfield.
    assert (field ≠ "created_at") as Hcreated.
    { intros ->. rule_cases Hfield. }
    rewrite processRow_other by done.
    destruct (row !! field) as [v|] eqn:Hcell; [|by left]. right. simpl.
    destruct (String.eqb_spec v "") as [->|Hv]; [by left|]. right.
    destruct (Hnum field v) as [Hn ->]; [done..|]. by eexists.
  - exists address. split; [|done].
    rewrite processRow_other, Haddress by done. simpl. f_equal.
    unfold coerceCell. by destruct (String.eqb_spec address "").
Qed.

End UploadExtras.

(** ** The upload, case by case *)

Section UploadPaths.
Context `{Host}.
Implicit Types (p : Props) (w : World) (f : File) (row : RawRecord)
  (rows : list RawRecord) (ids : gset Ident) (trace : list Event)
  (ui : Component.Ui).

(** X12.  Every call to the backing store is made while the uploading flag
    is up.  A click with a file selected leaves the flag down, except when
    it ends in an uncaught error: then the flag stays up.  The click
    changes neither the selected file nor the preview. *)
Theorem uploading_flag p w ui :
  Observe.callsWhileUploading (Component.isUploading ui)
    (handleUpload p (Component.file ui) w) = true ∧
  Component.isUploading (Component.clickUpload p w ui)
  = match Component.file ui with
    | Some _ => Observe.uncaught (handleUpload p (Component.file ui) w)
    | None => Component.isUploading ui
    end ∧
  Component.file (Component.clickUpload p w ui) = Component.file ui ∧
  Component.previewData (Component.clickUpload p w ui) = Component.previewData ui.
Proof.
  unfold Component.clickUpload. destruct (Component.file ui) as [f|] eqn:Hfile.
  - upload_cases p f w; observe; by rewrite Hfile.
  - observe. by rewrite Hfile.
Qed.

(** X13.  A click with a file selected ends in exactly one of three ways:
    [onSuccess] is called once, after one insert that answered with
    success, no error is set and the toast shows the insert's message,
    with [onClose] called when it is given; or exactly one error is set
    and neither [onSuccess], the toast nor [onClose] is reached; or the
    click ends in an uncaught error, with no error set and none of the
    three reached. *)
Theorem upload_outcome p f w :
  (Observe.successes (handleUpload p (Some f) w) = 1%nat ∧
   Observe.errorsSet (handleUpload p (Some f) w) = [] ∧
   Observe.uncaught (handleUpload p (Some f) w) = false ∧
   (OnClose ∈ handleUpload p (Some f) w ↔ onClose p = true) ∧
   ∃ records result,
     bulkInsertCalls (handleUpload p (Some f) w) = [(tableName p, records)] ∧
     bulkInsert w (tableName p) records = Returns result ∧
     success result = true ∧
     ToastSuccess (Api.message result) ∈ handleUpload p (Some f) w)
  ∨
  (Observe.successes (handleUpload p (Some f) w) = 0%nat ∧
   (∃ m, Observe.errorsSet (handleUpload p (Some f) w) = [m]) ∧
   Observe.uncaught (handleUpload p (Some f) w) = false ∧
   (∀ m, ToastSuccess m ∉ handleUpload p (Some f) w) ∧
   (OnClose ∉ handleUpload p (Some f) w))
  ∨
  (Observe.successes (handleUpload p (Some f) w) = 0%nat ∧
   Observe.errorsSet (handleUpload p (Some f) w) = [] ∧
   Observe.uncaught (handleUpload p (Some f) w) = true ∧
   (∀ m, ToastSuccess m ∉ handleUpload p (Some f) w) ∧
   (OnClose ∉ handleUpload p (Some f) w)).
Proof.
  upload_cases p f w; observe;
    first
      [ right; left; split; [reflexivity|]; split; [by eexists|];
        split; [reflexivity|]; split; [intros ?|]; not_in_trace
      | right; right; split; [reflexivity|]; split; [reflexivity|];
        split; [reflexivity|]; split; [intros ?|]; not_in_trace
      | left; split; [reflexivity|]; split; [reflexivity|]; split; [reflexivity|];
        split;
        [ first [ split; [done|intros _; in_list] | split; [not_in_trace|done] ]
        | eexists _, _; split; [reflexivity|]; split; [eassumption|];
          split; [reflexivity|in_list] ] ].
Qed.

(** X14.  The stored rows are fetched exactly when the component uploads
    to the students table and the selected file could be read; no other
    table is ever fetched. *)
Theorem fetch_iff p file w table :
  FetchTableData table ∈ handleUpload p file w ↔
  table = "students" ∧ tableName p = "students" ∧
  ∃ f content, file = Some f ∧ text f = Returns content.
Proof.
  split.
  - destruct file as [f|]; [|not_in_trace].
    upload_cases p f w; intros Hin;
      repeat (apply elem_of_cons in Hin as [Hin|Hin]; [try discriminate Hin|]);
      try (by apply elem_of_nil in Hin);
      injection Hin as ->; (split; [done|]; split; [done|]; by exists f, content).
  - intros (-> & Hs & f & content & -> & Htext).
    unfold handleUpload. rewrite Htext, Hs. simpl. in_list.
Qed.

(** X15.  A failure before parsing, of reading the file or of fetching the
    stored rows, ends the click: the file is not parsed and nothing is
    inserted.  When the value thrown is neither [undefined] nor [null],
    the error shown is its message, or "Error reading file" when it has
    none or an empty one.  When it is [undefined] or [null], no error is
    shown and the click ends in an uncaught error. *)
Theorem failure_before_parsing p f w :
  (∀ err,
     text f = Throws err ∨
     (tableName p = "students" ∧ (∃ content, text f = Returns content) ∧
      fetchTableData w (tableName p) = Throws err) →
     reportedError (handleUpload p (Some f) w)
     = Some (messageOr err "Error reading file") ∧
     Observe.uncaught (handleUpload p (Some f) w) = false ∧
     (∀ content, PapaParse content ∉ handleUpload p (Some f) w) ∧
     bulkInsertCalls (handleUpload p (Some f) w) = []) ∧
  (text f = ThrowsNullish ∨
   (tableName p = "students" ∧ (∃ content, text f = Returns content) ∧
    fetchTableData w (tableName p) = ThrowsNullish) →
   reportedError (handleUpload p (Some f) w) = None ∧
   Observe.uncaught (handleUpload p (Some f) w) = true ∧
   (∀ content, PapaParse content ∉ handleUpload p (Some f) w) ∧
   bulkInsertCalls (handleUpload p (Some f) w) = []).
Proof.
  unfold handleUpload, failReading, failCatching. split.
  - intros err [Htext|(Hs & (content & Htext) & Hfetch)].
    + rewrite Htext. split; [done|]. split; [done|].
      split; [intros ?; not_in_trace|done].
    + rewrite Htext, Hfetch, Hs. simpl. split; [done|]. split; [done|].
      split; [intros ?; not_in_trace|done].
  - intros [Htext|(Hs & (content & Htext) & Hfetch)].
    + rewrite Htext. split; [done|]. split; [done|].
      split; [intros ?; not_in_trace|done].
    + rewrite Htext, Hfetch, Hs. simpl. split; [done|]. split; [done|].
      split; [intros ?; not_in_trace|done].
Qed.

(** X16.  After a click the error of the component is the last error text
    the click reported, none if it reported none; the alert is shown only
    after a click that did not reach [onSuccess]. *)
Theorem clickUpload_error p w ui :
  Component.error (Component.clickUpload p w ui)
  = reportedError (handleUpload p (Component.file ui) w) ∧
  (Component.alertShown (Component.clickUpload p w ui) = true →
   Observe.successes (handleUpload p (Component.file ui) w) = 0%nat).
Proof.
  unfold Component.clickUpload, Component.alertShown.
  destruct (Component.file ui) as [f|]; [|done].
  upload_cases p f w; observe; done.
Qed.

Lemma messageOr_nonempty err fallback : fallback ≠ "" → messageOr err fallback ≠ "".
Proof.
  intros Hf. unfold messageOr. destruct err as [m|]; [|done].
  by destruct (String.eqb_spec m "").
Qed.

Lemma classify_nonempty m : m ≠ "" → classify m ≠ "".
Proof. intros Hm. unfold classify. by destruct (includes _ _). Qed.

Lemma truthyCell_nonempty (m : string) : m ≠ "" → truthyCell (Some m) = true.
Proof. intros Hm. simpl. by apply negb_true_iff, String.eqb_neq. Qed.

(** X17.  As long as the backing store gives its failed inserts a message,
    a click that does not reach [onSuccess] leaves the alert shown, unless
    it ends in an uncaught error: that failure is silent, no alert is
    shown and the Upload button stays disabled. *)
Theorem failure_is_shown p w ui :
  (∀ records result,
     bulkInsert w (tableName p) records = Returns result →
     success result = false → Api.message result ≠ "") →
  Observe.successes (handleUpload p (Component.file ui) w) = 0%nat →
  if Observe.uncaught (handleUpload p (Component.file ui) w)
  then Component.alertShown (Component.clickUpload p w ui) = false ∧
       Component.uploadDisabled (Component.clickUpload p w ui) = true
  else Component.alertShown (Component.clickUpload p w ui) = true.
Proof.
  intros Hmessage.
  unfold Component.clickUpload, Component.alertShown, Component.uploadDisabled.
  destruct (Component.file ui) as [f|] eqn:Hfile; [|done].
  upload_cases p f w; observe; try done; intros _;
    try (by rewrite Hfile);
    apply truthyCell_nonempty;
    try (apply classify_nonempty; first
           [ by apply messageOr_nonempty
           | by apply (Hmessage _ _ Hins) ]);
    try (by apply messageOr_nonempty);
    try (apply append_nonempty_r; discriminate);
    unfold validationReport; intros Hempty; discriminate Hempty.
Qed.

(** X21.  A click ends in an uncaught error exactly when a call it awaits
    rejects with [undefined] or [null]: reading the file, fetching the
    stored rows of the students table, or the insert of a file that was
    read, parsed and validated without an error. *)
Theorem uncaught_iff p file w :
  Observe.uncaught (handleUpload p file w) = true ↔
  ∃ f, file = Some f ∧
    (text f = ThrowsNullish ∨
     ∃ content, text f = Returns content ∧
       ((tableName p = "students" ∧ fetchTableData w (tableName p) = ThrowsNullish) ∨
        ∃ ids rows,
          fetchedIds p w = Some ids ∧ papaParse w content = Complete [] rows ∧
          rows ≠ [] ∧
          (tableName p = "students" → validateStudentData rows ids = []) ∧
          bulkInsert w (tableName p) (imap (λ i row, processRow (clock w i) row) rows)
          = ThrowsNullish)).
Proof.
  split.
  - destruct file as [f|]; [|done]. unfold fetchedIds.
    upload_cases p f w; observe; try done; intros _; exists f;
      (split; [reflexivity|]);
      first
        [ by left
        | right; eexists; split; [eassumption|]; first
            [ by left
            | right; eexists _, _; split; [reflexivity|]; split; [eassumption|];
              split; [done|]; split; [done|eassumption] ] ].
  - intros (f & -> & [Htext|(content & Htext & [[Hs Hfetch]|
      (ids & rows & Hids & Hparse & Hrows & Hvalid & Hins)])]).
    + unfold handleUpload. by rewrite Htext.
    + unfold handleUpload. by rewrite Htext, Hfetch, Hs.
    + rewrite (handleUpload_parsed p f w content ids [] rows) by done.
      rewrite (complete_valid p w ids rows) by done.
      unfold insertRows. rewrite Hins. unfold Observe.uncaught.
      rewrite !existsb_app. simpl. by rewrite !orb_true_r.
Qed.

(** X22.  When the insert throws a value that has no message, the error
    shown is "Error uploading data"; when it throws [undefined] or [null],
    no error is shown and the click ends in an uncaught error. *)
Theorem insert_failure_without_message p f w (content : string) ids rows :
  text f = Returns content → fetchedIds p w = Some ids →
  papaParse w content = Complete [] rows → rows ≠ [] →
  (tableName p = "students" → validateStudentData rows ids = []) →
  (bulkInsert w (tableName p) (imap (λ i row, processRow (clock w i) row) rows)
   = Throws None →
   reportedError (handleUpload p (Some f) w) = Some "Error uploading data" ∧
   Observe.uncaught (handleUpload p (Some f) w) = false) ∧
  (bulkInsert w (tableName p) (imap (λ i row, processRow (clock w i) row) rows)
   = ThrowsNullish →
   reportedError (handleUpload p (Some f) w) = None ∧
   Observe.uncaught (handleUpload p (Some f) w) = true).
Proof.
  intros Htext Hids Hparse Hrows Hvalid.
  rewrite (handleUpload_parsed p f w content ids [] rows Htext Hids Hparse).
  rewrite complete_valid by done. unfold insertRows, Observe.uncaught.
  split; intros ->.
  - split; [by do 2 apply reportedError_app|].
    rewrite !existsb_app. simpl. by destruct (String.eqb _ _).
  - split.
    + unfold reportedError. rewrite !omap_app. simpl. by destruct (String.eqb _ _).
    + rewrite !existsb_app. simpl. by rewrite !orb_true_r.
Qed.

End UploadPaths.

(** ** The component *)

Section ComponentExtras.
Context `{Host}.
Implicit Types (ui : Component.Ui) (s : Component.Selected)
  (preview : string → ParseOutcome) (row : RawRecord).

(** X18.  After a selection the Upload button is enabled exactly when no
    upload is running and the selected file has the type [text/csv],
    whether or not its content could be read or parsed for the preview. *)
Theorem selection_enables_upload selected preview ui :
  Component.uploadDisabled (Component.handleFileChange selected preview ui) = false ↔
  Component.isUploading ui = false ∧
  ∃ s, selected = Some s ∧ Component.type s = "text/csv".
Proof.
  unfold Component.handleFileChange. destruct selected as [s|].
  - destruct (String.eqb_spec (Component.type s) "text/csv") as [Htype|Htype].
    + unfold Component.generatePreview.
      destruct (text (Component.picked s)) as [content|err|].
      * destruct (preview content) as [[|first others] [|row rows]|msg]; cbn;
          (split; [intros ->; split; [done|by exists s]|by intros [-> _]]).
      * cbn. split; [intros ->; split; [done|by exists s]|by intros [-> _]].
      * cbn. split; [intros ->; split; [done|by exists s]|by intros [-> _]].
    + cbn. split; [done|]. intros (_ & s' & [= <-] & Htype'). done.
  - cbn. split; [done|]. by intros (_ & s' & [=] & _).
Qed.

(** X19.  The preview is only ever replaced by rows: when a CSV file whose
    preview parse yields no row is selected after a file with rows, the
    component names the new file and still shows the rows of the old one. *)
Theorem stale_preview s preview ui content old :
  Component.type s = "text/csv" →
  text (Component.picked s) = Returns content →
  preview content = Complete [] [] →
  Component.previewData ui = Some old → old ≠ [] →
  Component.file (Component.handleFileChange (Some s) preview ui)
  = Some (Component.picked s) ∧
  Component.previewData (Component.handleFileChange (Some s) preview ui) = Some old ∧
  Component.previewShown (Component.handleFileChange (Some s) preview ui) = true.
Proof.
  intros Htype Htext Hpreview Hold Hrows.
  unfold Component.handleFileChange, Component.generatePreview.
  rewrite Htype, Htext, Hpreview. cbn. split; [done|]. split; [done|].
  rewrite Hold. by destruct old.
Qed.

(** X20.  [created_at] is not among the columns the component documents
    for a students file: a row that has only documented columns is always
    stamped with the time of its coercion. *)
Theorem documented_rows_are_stamped now row :
  (∀ key, key ∈ dom row → key ∈ Component.getStudentColumns) →
  processRow now row !! "created_at" = Some (Str (toISOString now)).
Proof.
  intros Hkeys. apply processRow_clock.
  destruct (row !! "created_at") as [v|] eqn:Hcell; [|done].
  assert ("created_at" ∈ Component.getStudentColumns) as Hin.
  { apply Hkeys. apply elem_of_dom. by eexists. }
  exfalso. clear -Hin. rule_cases Hin.
Qed.

End ComponentExtras.

(** * Closed instances of the further properties *)

(** X4 on a sample file: storing Bala's identifier adds errors of one kind. *)
Lemma validateStudentData_existing_mono_sample :
  validateStudentData [asha; bala] ∅ = [] ∧
  (existsError 1 "S-102" ∈ validateStudentData [asha; bala] {[IdStr "S-102"]} →
   ∃ index id, existsError 1 "S-102" = existsError index id ∧
               IdStr id ∈ ({[IdStr "S-102"]} : gset Ident)).
Proof.
  destruct (validateStudentData_existing_mono [asha; bala] ∅ {[IdStr "S-102"]})
    as [_ Hnew].
  { apply empty_subseteq. }
  assert (validateStudentData [asha; bala] ∅ = []) as Hnone by (vm_compute; reflexivity).
  split; [exact Hnone|]. intros He.
  destruct (Hnew _ He) as [Hold|(index & id & Heq & Hin & _)].
  - rewrite Hnone in Hold. by apply elem_of_nil in Hold.
  - by exists index, id.
Defined.

(** X5 on a row whose [student_email] is one space. *)
Lemma blank_email_two_errors_sample :
  missingFieldError 0 "student_email" ∈ validateStudentData [Cases.ashaBlankEmail] ∅ ∧
  emailFormatError 0 "student_email" ∈ validateStudentData [Cases.ashaBlankEmail] ∅.
Proof.
  destruct (blank_email_two_errors [Cases.ashaBlankEmail] ∅ 0 Cases.ashaBlankEmail " ")
    as [Hstudent _]; [reflexivity|discriminate|reflexivity|].
  apply Hstudent. vm_compute. reflexivity.
Defined.

(** X6 on a row whose [number_of_sessions] is one space. *)
Lemma blank_numeric_cell_is_zero_sample :
  @coerceCell ExampleHost.host "number_of_sessions" " " = Num (Decimal false 0 0) ∧
  (numericError 0 "number_of_sessions" ∉ validateStudentData [Cases.ashaBlankSessions] ∅).
Proof.
  apply (@blank_numeric_cell_is_zero ExampleHost.host [Cases.ashaBlankSessions] ∅ 0
           Cases.ashaBlankSessions "number_of_sessions" " ").
  - in_list.
  - reflexivity.
  - vm_compute. reflexivity.
  - discriminate.
  - reflexivity.
Defined.

(** X8 on a comment with surrounding spaces. *)
Lemma processRow_passthrough_sample :
  @processRow ExampleHost.host 0 Cases.ashaComment !! "comments"
  = Some (Str " likes music ").
Proof.
  apply (@processRow_passthrough ExampleHost.host 0 Cases.ashaComment "comments"
           " likes music ").
  - intros Hin. rule_cases Hin.
  - vm_compute. reflexivity.
Defined.


(** X11 on a valid two-row sample file. *)
Lemma inserted_students_well_formed_sample :
  ∃ address,
    @processRow ExampleHost.host (clock (world [asha; bala] [] inserted) 0) asha
      !! "student_email" = Some (Str address) ∧
    hasEmailShape address.
Proof.
  assert (validateStudentData [asha; bala] ∅ = []) as Hnone by (vm_compute; reflexivity).
  pose proof (@bulkInsertCalls_handleUpload_valid ExampleHost.host students csv
                (world [asha; bala] [] inserted) "first_name,last_name,student_email"
                ∅ [asha; bala] eq_refl eq_refl eq_refl) as Hcalls.
  destruct (@inserted_students_well_formed ExampleHost.host students (Some csv)
              (world [asha; bala] [] inserted) "students"
              (imap (λ i row, @processRow ExampleHost.host
                                (clock (world [asha; bala] [] inserted) i) row)
                    [asha; bala])
              (@processRow ExampleHost.host (clock (world [asha; bala] [] inserted) 0) asha))
    as (_ & _ & Hemail).
  - reflexivity.
  - rewrite Hcalls; [|discriminate|intros _; exact Hnone]. apply elem_of_cons. by left.
  - apply elem_of_cons. by left.
  - exact Hemail.
Defined.

(** X15 on a students upload while the backing store cannot be reached,
    and while it rejects without a reason. *)
Lemma failure_before_parsing_sample :
  reportedError (@handleUpload ExampleHost.host students (Some csv) Cases.offline)
  = Some "Failed to fetch" ∧
  bulkInsertCalls (@handleUpload ExampleHost.host students (Some csv) Cases.offline) = [] ∧
  reportedError (@handleUpload ExampleHost.host students (Some csv) Cases.rejecting)
  = None ∧
  Observe.uncaught (@handleUpload ExampleHost.host students (Some csv) Cases.rejecting)
  = true.
Proof.
  destruct (@failure_before_parsing ExampleHost.host students csv Cases.offline)
    as [Hthrown _].
  destruct (@failure_before_parsing ExampleHost.host students csv Cases.rejecting)
    as [_ Hnullish].
  destruct (Hthrown (Some "Failed to fetch")) as (Hreported & _ & _ & Hcalls).
  { right. split; [reflexivity|]. split; [by eexists|reflexivity]. }
  destruct Hnullish as (Hnone & Huncaught & _).
  { right. split; [reflexivity|]. split; [by eexists|reflexivity]. }
  split; [exact Hreported|]. split; [exact Hcalls|]. split; [exact Hnone|exact Huncaught].
Defined.

(** X17 on an insert the store refuses with a message. *)
Lemma failure_is_shown_sample :
  Component.alertShown
    (@Component.clickUpload ExampleHost.host students
       (world [asha; bala] [] Cases.refused) Cases.selectedCsv) = true.
Proof.
  assert (Observe.uncaught
            (@handleUpload ExampleHost.host students (Component.file Cases.selectedCsv)
               (world [asha; bala] [] Cases.refused)) = false) as Hcaught
    by (vm_compute; reflexivity).
  pose proof (@failure_is_shown ExampleHost.host students
                (world [asha; bala] [] Cases.refused) Cases.selectedCsv) as Hshown.
  rewrite Hcaught in Hshown. apply Hshown.
  - intros records result [= <-] _. discriminate.
  - vm_compute. reflexivity.
Defined.

(** X22 on an insert that rejects without a reason. *)
Lemma insert_failure_without_message_sample :
  reportedError
    (@handleUpload ExampleHost.host students (Some csv)
       (world [asha; bala] [] ThrowsNullish)) = None ∧
  Observe.uncaught
    (@handleUpload ExampleHost.host students (Some csv)
       (world [asha; bala] [] ThrowsNullish)) = true.
Proof.
  destruct (@insert_failure_without_message ExampleHost.host students csv
              (world [asha; bala] [] ThrowsNullish)
              "first_name,last_name,student_email" ∅ [asha; bala]
              eq_refl eq_refl eq_refl) as [_ Hnullish].
  - discriminate.
  - intros _. vm_compute. reflexivity.
  - exact (Hnullish eq_refl).
Defined.

(** X19 on a header-only file selected after a file with two rows. *)
Lemma stale_preview_sample :
  Component.previewData
    (Component.handleFileChange (Some Cases.headerOnly) Cases.emptyPreview Cases.selectedCsv)
  = Some [asha; bala] ∧
  Component.previewShown
    (Component.handleFileChange (Some Cases.headerOnly) Cases.emptyPreview Cases.selectedCsv)
  = true.
Proof.
  destruct (stale_preview Cases.headerOnly Cases.emptyPreview Cases.selectedCsv
              "first_name,last_name,student_email" [asha; bala]
              eq_refl eq_refl eq_refl eq_refl) as (_ & Hdata & Hshown).
  - discriminate.
  - split; [exact Hdata|exact Hshown].
Defined.

(** X20 on Asha's row, whose columns are all documented. *)
Lemma documented_rows_are_stamped_sample :
  @processRow ExampleHost.host 1709210096789 asha !! "created_at"
  = Some (Str "2024-02-29T12:34:56.789Z").
Proof.
  assert (toISOString 1709210096789 = "2024-02-29T12:34:56.789Z") as <-
    by (vm_compute; reflexivity).
  apply (@documented_rows_are_stamped ExampleHost.host 1709210096789 asha).
  intros key [v Hv]%elem_of_dom. unfold asha, student in Hv. simpl in Hv.
  repeat (apply lookup_insert_Some in Hv as [[<- _]|[_ Hv]]; [in_list|]).
  by rewrite lookup_empty in Hv.
Defined.
